(** * kportforward: the supervision engine, embedded and verified

    A shallow embedding of the Go packages [internal/utils] (ports and
    processes) and [internal/portforward] (the per-service [ServiceManager]
    and the coordinating [Manager]), together with the properties that the
    design document states about them.

    Conventions of the embedding:
    - Go's [int] is a 64-bit two's-complement integer, carried as a [Z]
      with the wrap-around of [++] and [+] written out ([GoInt]);
    - a Go [error] is its message ([string]); a nil error is [None];
    - a Go [(value, error)] result is a sum, [inl value] or [inr err];
    - everything the program observes of the host (listening sockets,
      process table, the kubectl binary) is an oracle in [Env]; everything
      it does to the host is an [Event] appended to a trace;
    - [time.Now()] readings are explicit arguments, one per call site;
    - a [range] over a Go map visits the keys in an order chosen by the
      runtime: every such loop takes that order as an argument. *)

From stdpp Require Import gmap strings list fin_maps pretty.

Open Scope Z_scope.

(** ** Go integers *)

Module GoInt.

Definition min_int : Z := - 2 ^ 63.
Definition max_int : Z := 2 ^ 63 - 1.

(** Reduction of a mathematical integer to the 64-bit signed range. *)
Definition wrap (z : Z) : Z := (z + 2 ^ 63) mod 2 ^ 64 - 2 ^ 63.

Definition add (a b : Z) : Z := wrap (a + b).
Definition sub (a b : Z) : Z := wrap (a - b).

(** [x++] *)
Definition incr (a : Z) : Z := add a 1.

Definition in_range (z : Z) : Prop := min_int <= z <= max_int.

End GoInt.

(** ** The host as the program sees it *)

Definition error := string.

(** [time.Time] as an instant: nanoseconds since the zero value
    [time.Time{}]; [time.Duration] is a count of nanoseconds. *)
Definition Time := Z.
Definition Duration := Z.

Module time.
Definition zero : Time := 0.
Definition Second : Duration := 1000000000.
Definition Millisecond : Duration := 1000000.
(** [t.Before(u)] *)
Definition Before (t u : Time) : bool := bool_decide (t < u).
(** [t.Add(d)] *)
Definition Add (t : Time) (d : Duration) : Time := t + d.
(** [time.Duration(n) * time.Second] on int64 *)
Definition Seconds (n : Z) : Duration := GoInt.wrap (n * Second).
End time.

Inductive OSKind := Unix | Windows.

Inductive Signal := SigNull | SIGTERM | SIGKILL.

Inductive LogLevel := LevelDebug | LevelInfo | LevelWarn | LevelError.

(** Background tasks started with [go]. *)
Inductive Task :=
| TaskRestart (serviceName : string)
| TaskRestartAllServices.

(** What the program does to the outside world. A log event records the
    call and its format string, before the logger's level filter. *)
Inductive Event :=
| EvSignal (pid : Z) (sig : Signal)
| EvTasklist (pid : Z)
| EvTaskkill (pid : Z)
| EvSpawn (namespace target : string) (localPort targetPort : Z)
| EvLog (level : LogLevel) (format : string)
| EvGo (task : Task).

(** Any signal sent to a process, the null probe included. *)
Definition is_signal (e : Event) : bool :=
  match e with
  | EvSignal _ _ | EvTaskkill _ => true
  | _ => false
  end.

(** A request to terminate a process. *)
Definition is_kill (e : Event) : bool :=
  match e with
  | EvSignal _ SIGTERM | EvSignal _ SIGKILL | EvTaskkill _ => true
  | _ => false
  end.

Definition is_spawn (e : Event) : bool :=
  match e with EvSpawn _ _ _ _ => true | _ => false end.

(** A liveness probe: the null signal, or a tasklist query. *)
Definition is_probe (e : Event) : bool :=
  match e with
  | EvSignal _ SigNull | EvTasklist _ => true
  | _ => false
  end.

(** The answers of the host. Each field is the outcome of one system
    interaction; [None] in an [option error] is success. *)
Record Env := mkEnv {
  GOOS : OSKind;
  (** [net.Listen("tcp", ":port")] succeeds *)
  listen : Z -> bool;
  (** [net.DialTimeout("tcp", "localhost:port", 1s)] succeeds *)
  dial : Z -> bool;
  (** [os.FindProcess(pid)] *)
  findProcess : Z -> option error;
  (** [process.Signal(sig)] *)
  signal : Z -> Signal -> option error;
  (** [tasklist /FI "PID eq pid" /FO CSV]: its output, or the error *)
  tasklist : Z -> string + error;
  (** [taskkill /F /PID pid] *)
  taskkill : Z -> option error;
  (** [cmd.Start()] of [kubectl port-forward -n ns target local:remote]:
      the child's pid, or the error *)
  kubectlStart : string -> string -> Z -> Z -> Z + error;
  (** [kubectl config current-context]: its output, or the error *)
  kubectlCurrentContext : string + error
}.

(** ** Package utils *)

Module utils.

(** *** ports.go *)

Definition IsPortAvailable (env : Env) (port : Z) : bool :=
  listen env port.

(** The loop [for port := startPort; port <= 65535; port++]: [fuel] is
    the number of iterations left, [65536 - startPort] at entry. *)
Fixpoint FindAvailablePort_from (env : Env) (fuel : nat) (port : Z) : option Z :=
  match fuel with
  | O => None
  | S fuel' =>
      if IsPortAvailable env port then Some port
      else FindAvailablePort_from env fuel' (port + 1)
  end.

Definition FindAvailablePort (env : Env) (startPort : Z) : Z + error :=
  match FindAvailablePort_from env (Z.to_nat (65536 - startPort)) startPort with
  | Some port => inl port
  | None => inr ("no available ports found starting from " +:+ pretty startPort)
  end.

Definition CheckPortConnectivity (env : Env) (port : Z) : bool :=
  dial env port.

Record ServiceConfig := mkServiceConfig { LocalPort : Z }.

(** [usedPorts[port]] on a [map[int]bool]: absent keys read as false. *)
Definition used (usedPorts : gmap Z bool) (port : Z) : bool :=
  default false (usedPorts !! port).

(** First pass of [ResolvePortConflicts], one iteration. *)
Definition assign_available (env : Env) (services : gmap string ServiceConfig)
    (acc : gmap string Z * gmap Z bool) (name : string)
    : gmap string Z * gmap Z bool :=
  match services !! name with
  | None => acc
  | Some service =>
      let '(portAssignments, usedPorts) := acc in
      if IsPortAvailable env (LocalPort service)
         && negb (used usedPorts (LocalPort service))
      then (<[name := LocalPort service]> portAssignments,
            <[LocalPort service := true]> usedPorts)
      else acc
  end.

(** Second pass of [ResolvePortConflicts]; the first failure returns. *)
Fixpoint resolve_conflicts (env : Env) (services : gmap string ServiceConfig)
    (order : list string) (portAssignments : gmap string Z)
    (usedPorts : gmap Z bool) : gmap string Z + error :=
  match order with
  | [] => inl portAssignments
  | name :: order' =>
      match services !! name with
      | None => resolve_conflicts env services order' portAssignments usedPorts
      | Some service =>
          match portAssignments !! name with
          | Some _ => resolve_conflicts env services order' portAssignments usedPorts
          | None =>
              match FindAvailablePort env (LocalPort service) with
              | inr err =>
                  inr ("failed to find available port for service " +:+ name
                       +:+ ": " +:+ err)
              | inl newPort =>
                  resolve_conflicts env services order'
                    (<[name := newPort]> portAssignments)
                    (<[newPort := true]> usedPorts)
              end
          end
      end
  end.

(** [order1] and [order2] are the orders in which the two [range] loops
    visit the keys of [services]. *)
Definition ResolvePortConflicts (env : Env) (order1 order2 : list string)
    (services : gmap string ServiceConfig) : gmap string Z + error :=
  let '(portAssignments, usedPorts) :=
    foldl (assign_available env services) (∅, ∅) order1 in
  resolve_conflicts env services order2 portAssignments usedPorts.

(** *** processes.go *)

Definition isProcessRunningWindows (env : Env) (pid : Z) : bool * list Event :=
  match tasklist env pid with
  | inr _ => (false, [EvTasklist pid])
  | inl output =>
      (bool_decide (100 < Z.of_nat (String.length output)), [EvTasklist pid])
  end.

Definition IsProcessRunning (env : Env) (pid : Z) : bool * list Event :=
  if bool_decide (pid <= 0) then (false, [])
  else
    match findProcess env pid with
    | Some _ => (false, [])
    | None =>
        match GOOS env with
        | Unix =>
            (bool_decide (signal env pid SigNull = None), [EvSignal pid SigNull])
        | Windows => isProcessRunningWindows env pid
        end
    end.

Definition KillProcess (env : Env) (pid : Z) : option error * list Event :=
  if bool_decide (pid <= 0) then (Some ("invalid PID: " +:+ pretty pid), [])
  else
    match findProcess env pid with
    | Some err =>
        (Some ("failed to find process " +:+ pretty pid +:+ ": " +:+ err), [])
    | None =>
        match GOOS env with
        | Windows => (taskkill env pid, [EvTaskkill pid])
        | Unix =>
            (* the second test of runtime.GOOS; its else branch
               (process.Kill) is behind the return above *)
            match signal env pid SIGTERM with
            | Some _ =>
                (signal env pid SIGKILL, [EvSignal pid SIGTERM; EvSignal pid SIGKILL])
            | None => (None, [EvSignal pid SIGTERM])
            end
        end
    end.

Record ProcessInfo := mkProcessInfo {
  PID : Z;
  Command : string;
  Args : list string
}.

Definition GetProcessInfo (env : Env) (pid : Z) : (ProcessInfo + error) * list Event :=
  match IsProcessRunning env pid with
  | (false, tr) => (inr ("process " +:+ pretty pid +:+ " is not running"), tr)
  | (true, tr) => (inl (mkProcessInfo pid "kubectl" ["port-forward"]), tr)
  end.

(** processes_unix.go / processes_windows.go: build the command line and
    [cmd.Start()] it. *)
Definition StartKubectlPortForward (env : Env) (namespace target : string)
    (localPort targetPort : Z) : (Z + error) * list Event :=
  match kubectlStart env namespace target localPort targetPort with
  | inl pid => (inl pid, [EvSpawn namespace target localPort targetPort])
  | inr err =>
      (inr ("failed to start kubectl port-forward: " +:+ err),
       [EvSpawn namespace target localPort targetPort])
  end.

End utils.

(** ** Operations on a mutable object

    A method with receiver of type [S] is a function from the receiver's
    state to an outcome, the new state and the trace of what it did. A
    panic stops the method; the state and the trace reached so far stay. *)

Inductive Outcome (A : Type) :=
| Returned (a : A)
| Panicked (msg : string).
Arguments Returned {A} a.
Arguments Panicked {A} msg.

Definition Op (S A : Type) : Type := S -> Outcome A * S * list Event.

Definition op_ret {S A} (a : A) : Op S A := fun s => (Returned a, s, []).

Definition op_bind {S A B} (m : Op S A) (k : A -> Op S B) : Op S B :=
  fun s =>
    match m s with
    | (Returned a, s1, t1) =>
        match k a s1 with
        | (r, s2, t2) => (r, s2, t1 ++ t2)
        end
    | (Panicked msg, s1, t1) => (Panicked msg, s1, t1)
    end.

Definition op_get {S} : Op S S := fun s => (Returned s, s, []).
Definition op_modify {S} (f : S -> S) : Op S unit := fun s => (Returned tt, f s, []).
Definition op_emit {S} (t : list Event) : Op S unit := fun s => (Returned tt, s, t).
Definition op_panic {S A} (msg : string) : Op S A := fun s => (Panicked msg, s, []).

(** A call into a package-level function that has effects but no receiver. *)
Definition op_call {S A} (r : A * list Event) : Op S A :=
  fun s => (Returned (fst r), s, snd r).

Definition log {S} (level : LogLevel) (format : string) : Op S unit :=
  op_emit [EvLog level format].

(** The monad structure, so that stdpp's [x ← m; k] and [m;; k] apply. *)
Global Instance Op_ret {S} : MRet (Op S) := fun A a => op_ret a.
Global Instance Op_bind {S} : MBind (Op S) := fun A B k m => op_bind m k.

Definition outcome {S A} (r : Outcome A * S * list Event) : Outcome A := fst (fst r).
Definition state {S A} (r : Outcome A * S * list Event) : S := snd (fst r).
Definition trace {S A} (r : Outcome A * S * list Event) : list Event := snd r.

(** ** Package config (types.go) *)

Module Service.
Record t := mk {
  Target : string;
  TargetPort : Z;
  LocalPort : Z;
  Namespace : string;
  Type_ : string;
  SwaggerPath : string;
  APIPath : string
}.
End Service.

Module ServiceStatus.
Record t := mk {
  Name : string;
  Status : string;
  LocalPort : Z;
  PID : Z;
  StartTime : Time;
  RestartCount : Z;
  LastError : string;
  InCooldown : bool;
  CooldownUntil : Time
}.

Definition set_Status (v : string) (s : t) : t :=
  mk (Name s) v (LocalPort s) (PID s) (StartTime s) (RestartCount s)
     (LastError s) (InCooldown s) (CooldownUntil s).
Definition set_LocalPort (v : Z) (s : t) : t :=
  mk (Name s) (Status s) v (PID s) (StartTime s) (RestartCount s)
     (LastError s) (InCooldown s) (CooldownUntil s).
Definition set_PID (v : Z) (s : t) : t :=
  mk (Name s) (Status s) (LocalPort s) v (StartTime s) (RestartCount s)
     (LastError s) (InCooldown s) (CooldownUntil s).
Definition set_StartTime (v : Time) (s : t) : t :=
  mk (Name s) (Status s) (LocalPort s) (PID s) v (RestartCount s)
     (LastError s) (InCooldown s) (CooldownUntil s).
Definition set_RestartCount (v : Z) (s : t) : t :=
  mk (Name s) (Status s) (LocalPort s) (PID s) (StartTime s) v
     (LastError s) (InCooldown s) (CooldownUntil s).
Definition set_LastError (v : string) (s : t) : t :=
  mk (Name s) (Status s) (LocalPort s) (PID s) (StartTime s) (RestartCount s)
     v (InCooldown s) (CooldownUntil s).
Definition set_InCooldown (v : bool) (s : t) : t :=
  mk (Name s) (Status s) (LocalPort s) (PID s) (StartTime s) (RestartCount s)
     (LastError s) v (CooldownUntil s).
End ServiceStatus.

Record Config := mkConfig {
  PortForwards : gmap string Service.t;
  MonitoringInterval : Duration
}.

(** ** Package portforward: service.go *)

Module ServiceManager.

(** The fields of the Go struct that carry state. [cmd] is the pid of
    [sm.cmd.Process], [None] when [sm.cmd] is nil. The logger is the
    trace; the mutex and the context have no sequential content. *)
Record t := mk {
  name : string;
  config : Service.t;
  status : ServiceStatus.t;
  cmd : option Z;
  failureCount : Z;
  cooldownUntil : Time;
  backoffSeconds : list Z
}.

Definition set_status (f : ServiceStatus.t -> ServiceStatus.t) (sm : t)
    : t :=
  mk (name sm) (config sm) (f (status sm)) (cmd sm)
    (failureCount sm) (cooldownUntil sm) (backoffSeconds sm).
Definition set_cmd (v : option Z) (sm : t) : t :=
  mk (name sm) (config sm) (status sm) v
    (failureCount sm) (cooldownUntil sm) (backoffSeconds sm).
Definition set_failureCount (v : Z) (sm : t) : t :=
  mk (name sm) (config sm) (status sm) (cmd sm)
    v (cooldownUntil sm) (backoffSeconds sm).
Definition set_cooldownUntil (v : Time) (sm : t) : t :=
  mk (name sm) (config sm) (status sm) (cmd sm)
    (failureCount sm) v (backoffSeconds sm).

Definition ladder : list Z := [5; 10; 20; 40; 60].

Definition NewServiceManager (name : string) (service : Service.t) : t :=
  {| name := name;
     config := service;
     status := ServiceStatus.mk name "Starting" (Service.LocalPort service)
                 0 time.zero 0 "" false time.zero;
     cmd := None;
     failureCount := 0;
     cooldownUntil := time.zero;
     backoffSeconds := ladder |}.

(** [time.Now().Before(sm.cooldownUntil)] with [now] the clock reading. *)
Definition isInCooldown (now : Time) (sm : t) : bool :=
  time.Before now (cooldownUntil sm).

(** [sm.backoffSeconds[i]]: an index outside the slice panics. *)
Definition backoff_at (sm : t) (i : Z) : Op t Z :=
  if bool_decide (0 <= i) then
    match backoffSeconds sm !! Z.to_nat i with
    | Some b => op_ret b
    | None => op_panic "index out of range"
    end
  else op_panic "index out of range".

Definition handleFailure (now : Time) : Op t unit :=
  op_modify (fun sm => set_failureCount (GoInt.incr (failureCount sm)) sm);;
  sm ← op_get;
  if bool_decide (failureCount sm < 3) then op_ret tt
  else
    let backoffIndex := GoInt.sub (failureCount sm) 3 in
    let len := Z.of_nat (length (backoffSeconds sm)) in
    let backoffIndex :=
      if bool_decide (len <= backoffIndex) then len - 1 else backoffIndex in
    b ← backoff_at sm backoffIndex;
    let cooldownDuration := time.Seconds b in
    op_modify (set_cooldownUntil (time.Add now cooldownDuration));;
    log LevelWarn "Service %s failed %d times, entering cooldown for %v".

Definition resetFailureCount : Op t unit :=
  sm ← op_get;
  if bool_decide (0 < failureCount sm) then
    log LevelInfo "Service %s recovered, resetting failure count";;
    op_modify (set_failureCount 0);;
    op_modify (set_cooldownUntil time.zero)
  else op_ret tt.

Definition resolvePort (env : Env) : Op t (Z + error) :=
  sm ← op_get;
  let LocalPort := Service.LocalPort (config sm) in
  if utils.IsPortAvailable env LocalPort then op_ret (inl LocalPort)
  else
    match utils.FindAvailablePort env (GoInt.add LocalPort 1) with
    | inr err => op_ret (inr err)
    | inl newPort =>
        log LevelWarn "Port %d is in use for %s, using port %d instead";;
        op_ret (inl newPort)
    end.

(** The rendering of a [time.Time] by [%v]; only used inside a message. *)
Definition formatTime (t : Time) : string := pretty t.

(** [now0] is the clock read by the cooldown test, [now1] the clock read
    after the child was (or was not) started. *)
Definition Start (env : Env) (now0 now1 : Time) : Op t (option error) :=
  sm ← op_get;
  if isInCooldown now0 sm then
    op_modify (set_status (ServiceStatus.set_Status "Cooldown"));;
    op_modify (set_status (ServiceStatus.set_InCooldown true));;
    op_ret (Some ("service " +:+ name sm +:+ " is in cooldown until "
                  +:+ formatTime (cooldownUntil sm)))
  else
    r ← resolvePort env;
    match r with
    | inr err =>
        op_modify (set_status (ServiceStatus.set_Status "Failed"));;
        op_modify (set_status (ServiceStatus.set_LastError err));;
        op_ret (Some ("port resolution failed for " +:+ name sm +:+ ": " +:+ err))
    | inl actualPort =>
        op_modify (set_status (ServiceStatus.set_LocalPort actualPort));;
        r ← op_call (utils.StartKubectlPortForward env
                       (Service.Namespace (config sm))
                       (Service.Target (config sm))
                       actualPort
                       (Service.TargetPort (config sm)));
        match r with
        | inr err =>
            op_modify (set_status (ServiceStatus.set_Status "Failed"));;
            op_modify (set_status (ServiceStatus.set_LastError err));;
            handleFailure now1;;
            op_ret (Some ("failed to start port-forward for " +:+ name sm
                          +:+ ": " +:+ err))
        | inl pid =>
            op_modify (set_cmd (Some pid));;
            op_modify (set_status (ServiceStatus.set_PID pid));;
            op_modify (set_status (ServiceStatus.set_StartTime now1));;
            op_modify (set_status (ServiceStatus.set_Status "Running"));;
            op_modify (set_status (ServiceStatus.set_LastError ""));;
            op_modify (set_status (ServiceStatus.set_InCooldown false));;
            log LevelInfo "Started port-forward for %s: %s:%d -> %d";;
            op_ret None
        end
    end.

Definition Stop (env : Env) : Op t (option error) :=
  sm ← op_get;
  match cmd sm with
  | Some pid =>
      err ← op_call (utils.KillProcess env pid);
      match err with
      | Some _ => log LevelWarn "Failed to kill process for %s: %v"
      | None => op_ret tt
      end;;
      op_modify (set_cmd None)
  | None => op_ret tt
  end;;
  op_modify (set_status (ServiceStatus.set_Status "Stopped"));;
  op_modify (set_status (ServiceStatus.set_PID 0));;
  log LevelInfo "Stopped port-forward for %s";;
  op_ret None.

Definition Restart (env : Env) (now0 now1 : Time) : Op t (option error) :=
  log LevelInfo "Restarting service %s";;
  err ← Stop env;
  match err with
  | Some _ => log LevelWarn "Error stopping service %s during restart: %v"
  | None => op_ret tt
  end;;
  op_modify (set_status (fun st =>
    ServiceStatus.set_RestartCount (GoInt.incr (ServiceStatus.RestartCount st)) st));;
  Start env now0 now1.

Definition IsHealthy (env : Env) : Op t bool :=
  sm ← op_get;
  match cmd sm with
  | None => op_ret false
  | Some pid =>
      running ← op_call (utils.IsProcessRunning env pid);
      if negb running then op_ret false
      else op_ret (utils.CheckPortConnectivity env
                     (ServiceStatus.LocalPort (status sm)))
  end.

Definition GetStatus (env : Env) : Op t ServiceStatus.t :=
  sm ← op_get;
  (if String.eqb (ServiceStatus.Status (status sm)) "Running" then
     healthy ← IsHealthy env;
     if negb healthy then
       op_modify (set_status (ServiceStatus.set_Status "Failed"));;
       op_modify (set_status (ServiceStatus.set_LastError "Health check failed"))
     else op_ret tt
   else op_ret tt);;
  sm ← op_get;
  op_ret (status sm).

End ServiceManager.

(** ** Package portforward: manager.go *)

(** A value of interface type [UIHandler]: the nil interface, an
    interface that wraps a nil pointer, or a handler object. *)
Inductive Iface (H : Type) :=
| NilInterface
| NilPointer
| Handler (h : H).
Arguments NilInterface {H}.
Arguments NilPointer {H}.
Arguments Handler {H} h.

(** The interface [UIHandler]: each method returns its result, the
    handler after the call and the trace of the call. *)
Class UIHandler (H : Type) := {
  StartService : string -> ServiceStatus.t -> Service.t -> H -> option error * H * list Event;
  StopService : string -> H -> option error * H * list Event;
  MonitorServices :
    gmap string ServiceStatus.t -> gmap string Service.t -> H -> H * list Event;
  IsEnabled : H -> bool
}.

(** A buffered channel. *)
Module Chan.
Record t (A : Type) := mk {
  buffer : list A;
  capacity : nat;
  closed : bool
}.
Arguments mk {A}.
Arguments buffer {A}.
Arguments capacity {A}.
Arguments closed {A}.

Definition make {A} (capacity : nat) : t A := mk [] capacity false.

(** [close(ch)] *)
Definition close {A} : Op (t A) unit :=
  fun ch =>
    if closed ch then (Panicked "close of closed channel", ch, [])
    else (Returned tt, mk (buffer ch) (capacity ch) true, []).

(** [select { case ch <- v: default: }] *)
Definition try_send {A} (v : A) : Op (t A) unit :=
  fun ch =>
    if closed ch then (Panicked "send on closed channel", ch, [])
    else if bool_decide (length (buffer ch) < capacity ch)%nat
    then (Returned tt, mk (buffer ch ++ [v]) (capacity ch) false, [])
    else (Returned tt, ch, []).
End Chan.

(** [for k := range ...] over the keys in the order [order]. *)
Fixpoint for_each {S} (order : list string) (body : string -> Op S unit) : Op S unit :=
  match order with
  | [] => op_ret tt
  | k :: order' => body k;; for_each order' body
  end.

Module Manager.

(** [monitoringTicker] is [None] while nil, then [Some running];
    [cancelled] is the state of [ctx]. *)
Record t (H : Type) := mk {
  services : gmap string ServiceManager.t;
  config : Config;
  cancelled : bool;
  kubernetesContext : string;
  grpcUIHandler : Iface H;
  swaggerUIHandler : Iface H;
  monitoringTicker : option bool;
  statusChan : Chan.t (gmap string ServiceStatus.t)
}.
Arguments mk {H}.
Arguments services {H}.
Arguments config {H}.
Arguments cancelled {H}.
Arguments kubernetesContext {H}.
Arguments grpcUIHandler {H}.
Arguments swaggerUIHandler {H}.
Arguments monitoringTicker {H}.
Arguments statusChan {H}.

Section WithHandlers.
Context {H : Type} `{UIHandler H}.

Definition set_services (v : gmap string ServiceManager.t) (m : t H) : t H :=
  mk v (config m) (cancelled m) (kubernetesContext m) (grpcUIHandler m)
     (swaggerUIHandler m) (monitoringTicker m) (statusChan m).
Definition set_cancelled (v : bool) (m : t H) : t H :=
  mk (services m) (config m) v (kubernetesContext m) (grpcUIHandler m)
     (swaggerUIHandler m) (monitoringTicker m) (statusChan m).
Definition set_kubernetesContext (v : string) (m : t H) : t H :=
  mk (services m) (config m) (cancelled m) v (grpcUIHandler m)
     (swaggerUIHandler m) (monitoringTicker m) (statusChan m).
Definition set_grpcUIHandler (v : Iface H) (m : t H) : t H :=
  mk (services m) (config m) (cancelled m) (kubernetesContext m) v
     (swaggerUIHandler m) (monitoringTicker m) (statusChan m).
Definition set_swaggerUIHandler (v : Iface H) (m : t H) : t H :=
  mk (services m) (config m) (cancelled m) (kubernetesContext m) (grpcUIHandler m)
     v (monitoringTicker m) (statusChan m).
Definition set_monitoringTicker (v : option bool) (m : t H) : t H :=
  mk (services m) (config m) (cancelled m) (kubernetesContext m) (grpcUIHandler m)
     (swaggerUIHandler m) v (statusChan m).
Definition set_statusChan (v : Chan.t (gmap string ServiceStatus.t)) (m : t H) : t H :=
  mk (services m) (config m) (cancelled m) (kubernetesContext m) (grpcUIHandler m)
     (swaggerUIHandler m) (monitoringTicker m) v.

Definition NewManager (cfg : Config) : t H :=
  mk ∅ cfg false "" NilInterface NilInterface None (Chan.make 1).

Definition SetUIHandlers (grpcUI swaggerUI : Iface H) : Op (t H) unit :=
  op_modify (set_grpcUIHandler grpcUI);;
  op_modify (set_swaggerUIHandler swaggerUI).

(** A method call on the service manager that [m.services[name]] points
    to: the object is updated in place. *)
Definition on_service {A} (name : string) (sm : ServiceManager.t)
    (op : Op ServiceManager.t A) : Op (t H) A :=
  fun m =>
    match op sm with
    | (r, sm', tr) => (r, set_services (<[name := sm']> (services m)) m, tr)
    end.

Definition on_statusChan {A} (op : Op (Chan.t (gmap string ServiceStatus.t)) A)
    : Op (t H) A :=
  fun m =>
    match op (statusChan m) with
    | (r, ch, tr) => (r, set_statusChan ch m, tr)
    end.

Definition isNilInterface (handler : Iface H) : bool :=
  match handler with
  | NilInterface => true
  | NilPointer => true
  | Handler _ => false
  end.

(** The guard [h != nil && !isNilInterface(h) && h.IsEnabled()]: the
    handler to call, if the guard passes. *)
Definition usable (handler : Iface H) : option H :=
  if isNilInterface handler then None
  else
    match handler with
    | Handler h => if IsEnabled h then Some h else None
    | _ => None
    end.

(** [kubectl config current-context], without the trailing newline. The
    value ["N/A"] that accompanies an error is dropped by every caller. *)
Definition newline : Ascii.ascii := Ascii.Ascii false true false true false false false false.

Definition trim_newline (context : string) : string :=
  match String.rev context with
  | String c rest =>
      if Ascii.eqb c newline then String.rev rest else context
  | EmptyString => context
  end.

Definition getCurrentKubernetesContext (env : Env) : string + error :=
  match kubectlCurrentContext env with
  | inr err => inr err
  | inl output => inl (trim_newline output)
  end.

Definition updateKubernetesContext (env : Env) : Op (t H) (option error) :=
  match getCurrentKubernetesContext env with
  | inr err => op_ret (Some err)
  | inl context => op_modify (set_kubernetesContext context);; op_ret None
  end.

(** The goroutine of [startMonitoring] is the caller of [tick] below. *)
Definition startMonitoring : Op (t H) unit :=
  op_modify (set_monitoringTicker (Some true)).

(** The loop of [Start] that starts every service; [n] is
    [len(startErrors)] so far, [clock name] the two clock readings of the
    [Start] of service [name]. *)
Fixpoint start_services (env : Env) (clock : string -> Time * Time)
    (order : list string) (n : nat) : Op (t H) nat :=
  match order with
  | [] => op_ret n
  | name :: order' =>
      m ← op_get;
      match services m !! name with
      | Some sm =>
          err ← on_service name sm
                  (ServiceManager.Start env (fst (clock name)) (snd (clock name)));
          match err with
          | Some _ =>
              log LevelError "Failed to start service %s: %v";;
              start_services env clock order' (S n)
          | None => start_services env clock order' n
          end
      | None => start_services env clock order' n
      end
  end.

Definition Start (env : Env) (order1 order2 : list string)
    (clock : string -> Time * Time) : Op (t H) (option error) :=
  err ← updateKubernetesContext env;
  match err with
  | Some err => op_ret (Some ("failed to get Kubernetes context: " +:+ err))
  | None =>
      m ← op_get;
      for_each order1 (fun name =>
        match PortForwards (config m) !! name with
        | Some serviceConfig =>
            op_modify (fun m => set_services
              (<[name := ServiceManager.NewServiceManager name serviceConfig]>
                 (services m)) m)
        | None => op_ret tt
        end);;
      startErrors ← start_services env clock order2 0%nat;
      startMonitoring;;
      if bool_decide (0 < startErrors)%nat then
        op_ret (Some ("failed to start " +:+ pretty startErrors +:+ " services"))
      else
        log LevelInfo "Started %d port-forward services";;
        op_ret None
  end.

(** One of the two handler loops of [Stop]. *)
Definition stop_handler (get : t H -> Iface H) (set : Iface H -> t H -> t H)
    (order : list string) (format : string) : Op (t H) unit :=
  m ← op_get;
  match usable (get m) with
  | None => op_ret tt
  | Some _ =>
      for_each order (fun serviceName =>
        m ← op_get;
        match services m !! serviceName, get m with
        | Some _, Handler h =>
            match StopService serviceName h with
            | (err, h', tr) =>
                op_modify (set (Handler h'));;
                op_emit tr;;
                match err with
                | Some _ => log LevelError format
                | None => op_ret tt
                end
            end
        | _, _ => op_ret tt
        end)
  end.

(** The loop of [Stop] that stops every service. *)
Definition stop_services (env : Env) (order : list string) : Op (t H) unit :=
  for_each order (fun name =>
    m ← op_get;
    match services m !! name with
    | Some sm =>
        err ← on_service name sm (ServiceManager.Stop env);
        match err with
        | Some _ => log LevelError "Failed to stop service %s: %v"
        | None => op_ret tt
        end
    | None => op_ret tt
    end).

Definition Stop (env : Env) (order1 order2 order3 : list string)
    : Op (t H) (option error) :=
  m ← op_get;
  match monitoringTicker m with
  | Some _ => op_modify (set_monitoringTicker (Some false))
  | None => op_ret tt
  end;;
  stop_handler grpcUIHandler set_grpcUIHandler order1
    "Failed to stop gRPC UI for %s: %v";;
  stop_handler swaggerUIHandler set_swaggerUIHandler order2
    "Failed to stop Swagger UI for %s: %v";;
  stop_services env order3;;
  op_modify (set_cancelled true);;
  on_statusChan Chan.close;;
  log LevelInfo "Stopped all port-forward services";;
  op_ret None.

(** One of the two handler calls of [monitorUIHandlers]. *)
Definition monitor_handler (get : t H -> Iface H) (set : Iface H -> t H -> t H)
    (statusMap : gmap string ServiceStatus.t) : Op (t H) unit :=
  m ← op_get;
  match usable (get m) with
  | None => op_ret tt
  | Some h =>
      match MonitorServices statusMap (PortForwards (config m)) h with
      | (h', tr) => op_modify (set (Handler h'));; op_emit tr
      end
  end.

Definition monitorUIHandlers (statusMap : gmap string ServiceStatus.t)
    : Op (t H) unit :=
  monitor_handler grpcUIHandler set_grpcUIHandler statusMap;;
  monitor_handler swaggerUIHandler set_swaggerUIHandler statusMap.

(** The loop of [monitorServices] that fills [statusMap]. *)
Fixpoint collect_status (env : Env) (order : list string)
    (statusMap : gmap string ServiceStatus.t)
    : Op (t H) (gmap string ServiceStatus.t) :=
  match order with
  | [] => op_ret statusMap
  | name :: order' =>
      m ← op_get;
      match services m !! name with
      | Some sm =>
          status ← on_service name sm (ServiceManager.GetStatus env);
          (if String.eqb (ServiceStatus.Status status) "Failed"
              && negb (ServiceStatus.InCooldown status)
           then
             log LevelInfo "Restarting failed service: %s";;
             op_emit [EvGo (TaskRestart name)]
           else op_ret tt);;
          collect_status env order' (<[name := status]> statusMap)
      | None => collect_status env order' statusMap
      end
  end.

Definition monitorServices (env : Env) (order : list string) : Op (t H) unit :=
  statusMap ← collect_status env order ∅;
  monitorUIHandlers statusMap;;
  on_statusChan (Chan.try_send statusMap).

Definition checkKubernetesContext (env : Env) : Op (t H) unit :=
  match getCurrentKubernetesContext env with
  | inr _ => log LevelError "Failed to get Kubernetes context: %v"
  | inl newContext =>
      m ← op_get;
      let currentContext := kubernetesContext m in
      if negb (String.eqb newContext currentContext) then
        log LevelInfo
          "Kubernetes context changed from %s to %s, restarting all services";;
        op_modify (set_kubernetesContext newContext);;
        op_emit [EvGo TaskRestartAllServices]
      else op_ret tt
  end.

(** The body of the monitoring loop for one tick of the ticker. *)
Definition tick (env : Env) (order : list string) : Op (t H) unit :=
  monitorServices env order;;
  checkKubernetesContext env.

Definition GetKubernetesContext (m : t H) : string := kubernetesContext m.

(** The loop of [GetCurrentStatus]. *)
Fixpoint current_status (env : Env) (order : list string)
    (status : gmap string ServiceStatus.t)
    : Op (t H) (gmap string ServiceStatus.t) :=
  match order with
  | [] => op_ret status
  | name :: order' =>
      m ← op_get;
      match services m !! name with
      | Some sm =>
          st ← on_service name sm (ServiceManager.GetStatus env);
          current_status env order' (<[name := st]> status)
      | None => current_status env order' status
      end
  end.

Definition GetCurrentStatus (env : Env) (order : list string)
    : Op (t H) (gmap string ServiceStatus.t) :=
  current_status env order ∅.

Definition RestartService (env : Env) (now0 now1 : Time) (name : string)
    : Op (t H) (option error) :=
  m ← op_get;
  match services m !! name with
  | None => op_ret (Some ("service " +:+ name +:+ " not found"))
  | Some sm => on_service name sm (ServiceManager.Restart env now0 now1)
  end.

(** [restartAllServices]: [order] is the order in which the slice of
    service managers was filled, [clock name] the clock readings of the
    restart of service [name]. The pause between two restarts changes
    nothing that is modelled. *)
Definition restartAllServices (env : Env) (order : list string)
    (clock : string -> Time * Time) : Op (t H) unit :=
  for_each order (fun name =>
    m ← op_get;
    match services m !! name with
    | Some sm =>
        err ← on_service name sm
                (ServiceManager.Restart env (fst (clock name)) (snd (clock name)));
        match err with
        | Some _ => log LevelError "Failed to restart service during context change: %v"
        | None => op_ret tt
        end
    | None => op_ret tt
    end).

End WithHandlers.
End Manager.

(** The handler of manager_test.go. *)
Module MockUIHandler.
Record t := mk {
  enabled : bool;
  startCalls : list string;
  stopCalls : list string
}.

Definition NewMockUIHandler : t := mk false [] [].
Definition Enable (m : t) : t := mk true (startCalls m) (stopCalls m).

Global Instance handler : UIHandler t := {
  StartService serviceName _ _ m :=
    (None, mk (enabled m) (startCalls m ++ [serviceName]) (stopCalls m), []);
  StopService serviceName m :=
    (None, mk (enabled m) (startCalls m) (stopCalls m ++ [serviceName]), []);
  MonitorServices _ _ m := (m, []);
  IsEnabled m := enabled m
}.
End MockUIHandler.

(** ** Concrete hosts, services and managers *)

Module Fixtures.

(** A Unix host on which the TCP ports of [busy] are taken by listeners
    that accept connections, every signal is delivered, and kubectl
    starts as process [pid]. *)
Definition host (busy : list Z) (pid : Z) : Env :=
  {| GOOS := Unix;
     listen := fun p => bool_decide (1 <= p <= 65535) && negb (bool_decide (p ∈ busy));
     dial := fun p => bool_decide (p ∈ busy);
     findProcess := fun _ => None;
     signal := fun _ _ => None;
     tasklist := fun _ => inr "exec: tasklist: executable file not found";
     taskkill := fun _ => Some "exec: taskkill: executable file not found";
     kubectlStart := fun _ _ _ _ => inl pid;
     kubectlCurrentContext := inl "alpha" |}.

(** The same host when the kubectl binary is missing. *)
Definition host_without_kubectl (busy : list Z) : Env :=
  {| GOOS := Unix;
     listen := listen (host busy 0);
     dial := dial (host busy 0);
     findProcess := fun _ => None;
     signal := fun _ _ => None;
     tasklist := tasklist (host busy 0);
     taskkill := taskkill (host busy 0);
     kubectlStart := fun _ _ _ _ => inr "exec: kubectl: executable file not found";
     kubectlCurrentContext := inr "exec: kubectl: executable file not found" |}.

(** A host on which the child [dead] has exited. *)
Definition host_child_died (busy : list Z) (dead : Z) : Env :=
  {| GOOS := Unix;
     listen := listen (host busy 0);
     dial := dial (host busy 0);
     findProcess := fun _ => None;
     signal := fun p _ =>
       if bool_decide (p = dead) then Some "os: process already finished" else None;
     tasklist := tasklist (host busy 0);
     taskkill := taskkill (host busy 0);
     kubectlStart := kubectlStart (host busy 0);
     kubectlCurrentContext := kubectlCurrentContext (host busy 0) |}.

Definition api : Service.t :=
  Service.mk "service/api" 8080 9000 "default" "web" "" "".

Definition fresh : ServiceManager.t := ServiceManager.NewServiceManager "api" api.

(** [fresh] after a first [Start] on an idle host: Running as pid 4242
    on port 9000. *)
Definition running : ServiceManager.t :=
  state (ServiceManager.Start (host [] 4242) 100 101 fresh).

(** [fresh] after a first [Start] that could not launch kubectl. *)
Definition failed_once : ServiceManager.t :=
  state (ServiceManager.Start (host_without_kubectl []) 100 101 fresh).

(** [fresh] after three such starts: the ladder's first rung is armed. *)
Definition failed_thrice : ServiceManager.t :=
  state (ServiceManager.Start (host_without_kubectl []) 300 301
    (state (ServiceManager.Start (host_without_kubectl []) 200 201 failed_once))).

(** Two services that ask for neighbouring local ports. *)
Definition neighbours : gmap string utils.ServiceConfig :=
  <["api" := utils.mkServiceConfig 9000]>
    (<["web" := utils.mkServiceConfig 9001]> ∅).

(** The orders in which a [range] can visit the two keys. *)
Definition neighbour_orders : list (list string) :=
  [["api"; "web"]; ["web"; "api"]].

Definition cfg : Config := mkConfig (<["api" := api]> ∅) (5 * time.Second).

(** A manager of one service, started on an idle host. *)
Definition started : Manager.t MockUIHandler.t :=
  state (Manager.Start (host [] 4242) ["api"] ["api"] (fun _ => (100, 101))
           (Manager.NewManager cfg)).

(** A host on which no TCP port can be bound. *)
Definition crowded_host : Env :=
  {| GOOS := Unix;
     listen := fun _ => false;
     dial := fun _ => true;
     findProcess := fun _ => None;
     signal := fun _ _ => None;
     tasklist := tasklist (host [] 0);
     taskkill := taskkill (host [] 0);
     kubectlStart := fun _ _ _ _ => inl 4242;
     kubectlCurrentContext := inl "alpha" |}.

(** A host whose kubectl prints the context [context] on a line of its
    own, as the real binary does. *)
Definition host_printing (context : string) : Env :=
  {| GOOS := Unix;
     listen := listen (host [] 0);
     dial := dial (host [] 0);
     findProcess := fun _ => None;
     signal := fun _ _ => None;
     tasklist := tasklist (host [] 0);
     taskkill := taskkill (host [] 0);
     kubectlStart := fun _ _ _ _ => inl 4242;
     kubectlCurrentContext := inl (context +:+ String Manager.newline "") |}.

End Fixtures.

(** ** Vocabulary of the statements *)

Module Spec.

(** The design's backoff: [ladder[min(f - 3, 4)]] seconds for a failure
    count [f] at or above the threshold 3. *)
Definition backoff_seconds (f : Z) : Z :=
  nth (Z.to_nat (Z.min (f - 3) 4)) ServiceManager.ladder 0.

(** The state that [Stop] leaves behind. *)
Definition stopped (sm : ServiceManager.t) : ServiceManager.t :=
  ServiceManager.set_status (ServiceStatus.set_PID 0)
    (ServiceManager.set_status (ServiceStatus.set_Status "Stopped")
       (ServiceManager.set_cmd None sm)).

(** What [Stop] does to the child, if there is one. *)
Definition kill_trace (env : Env) (sm : ServiceManager.t) : list Event :=
  match ServiceManager.cmd sm with
  | Some pid =>
      snd (utils.KillProcess env pid) ++
      match fst (utils.KillProcess env pid) with
      | Some _ => [EvLog LevelWarn "Failed to kill process for %s: %v"]
      | None => []
      end
  | None => []
  end.

(** The state that a refused [Start] leaves behind. *)
Definition refused (sm : ServiceManager.t) : ServiceManager.t :=
  ServiceManager.set_status (ServiceStatus.set_InCooldown true)
    (ServiceManager.set_status (ServiceStatus.set_Status "Cooldown") sm).

(** The state that a successful [Start] leaves behind. *)
Definition started (port pid : Z) (now : Time) (sm : ServiceManager.t)
    : ServiceManager.t :=
  ServiceManager.mk (ServiceManager.name sm) (ServiceManager.config sm)
    (ServiceStatus.mk
       (ServiceStatus.Name (ServiceManager.status sm)) "Running" port pid now
       (ServiceStatus.RestartCount (ServiceManager.status sm)) "" false
       (ServiceStatus.CooldownUntil (ServiceManager.status sm)))
    (Some pid) (ServiceManager.failureCount sm) (ServiceManager.cooldownUntil sm)
    (ServiceManager.backoffSeconds sm).

(** The state that a failed health check leaves behind. *)
Definition demoted (sm : ServiceManager.t) : ServiceManager.t :=
  ServiceManager.set_status (ServiceStatus.set_LastError "Health check failed")
    (ServiceManager.set_status (ServiceStatus.set_Status "Failed") sm).

(** Every assignment is an available port, at or above the port that
    its service asked for. *)
Definition sound_assignment (env : Env) (services : gmap string utils.ServiceConfig)
    (ports : gmap string Z) : Prop :=
  forall name p, ports !! name = Some p ->
    exists service, services !! name = Some service /\
                    utils.LocalPort service <= p /\
                    utils.IsPortAvailable env p = true.

(** No two names share a port. *)
Definition pairwise_distinct (ports : gmap string Z) : Prop :=
  forall n1 n2 p, ports !! n1 = Some p -> ports !! n2 = Some p -> n1 = n2.

(** The event concerns process [pid]. *)
Definition about_pid (pid : Z) (e : Event) : Prop :=
  match e with
  | EvSignal p _ | EvTasklist p | EvTaskkill p => p = pid
  | _ => False
  end.

(** The bookkeeping of a service manager agrees with itself: the ladder
    is the one the constructor installs; the recorded PID is that of the
    command handle, or 0 when there is none; a Running status has a
    command handle. *)
Definition consistent (sm : ServiceManager.t) : Prop :=
  ServiceManager.backoffSeconds sm = ServiceManager.ladder /\
  (ServiceManager.cmd sm = None /\ ServiceStatus.PID (ServiceManager.status sm) = 0
   \/ ServiceManager.cmd sm = Some (ServiceStatus.PID (ServiceManager.status sm))) /\
  (ServiceStatus.Status (ServiceManager.status sm) = "Running" ->
   ServiceManager.cmd sm = Some (ServiceStatus.PID (ServiceManager.status sm))).

(** The states that the exported methods can produce from a new service
    manager, on any host and at any clock readings. *)
Inductive reachable : ServiceManager.t -> Prop :=
| reachable_New (name : string) (service : Service.t) :
    reachable (ServiceManager.NewServiceManager name service)
| reachable_Start (env : Env) (now0 now1 : Time) (sm : ServiceManager.t) :
    reachable sm -> reachable (state (ServiceManager.Start env now0 now1 sm))
| reachable_Stop (env : Env) (sm : ServiceManager.t) :
    reachable sm -> reachable (state (ServiceManager.Stop env sm))
| reachable_Restart (env : Env) (now0 now1 : Time) (sm : ServiceManager.t) :
    reachable sm -> reachable (state (ServiceManager.Restart env now0 now1 sm))
| reachable_GetStatus (env : Env) (sm : ServiceManager.t) :
    reachable sm -> reachable (state (ServiceManager.GetStatus env sm)).

(** [RestartCount++] *)
Definition counted (sm : ServiceManager.t) : ServiceManager.t :=
  ServiceManager.set_status (fun st =>
    ServiceStatus.set_RestartCount (GoInt.incr (ServiceStatus.RestartCount st)) st) sm.

(** Every service manager of the map has the ladder that the constructor
    installs. *)
Definition ladders (services : gmap string ServiceManager.t) : Prop :=
  forall name sm, services !! name = Some sm ->
    ServiceManager.backoffSeconds sm = ServiceManager.ladder.

(** The trace consists of liveness probes. *)
Definition only_probes (tr : list Event) : Prop :=
  Forall (fun e => is_probe e = true) tr.

(** Every entry of the status map is the status that the service manager
    of that name holds. *)
Definition snapshot_of (status : gmap string ServiceStatus.t)
    (services : gmap string ServiceManager.t) : Prop :=
  forall name st, status !! name = Some st ->
    exists sm, services !! name = Some sm /\ ServiceManager.status sm = st.



End Spec.

(** ** Properties *)

(** Unfold the monad and nothing else: calls of modelled methods stay
    folded, so that their equations can be used by rewriting. *)
Ltac op_unfold :=
  unfold log, mbind, Op_bind, op_bind, mret, Op_ret, op_ret, op_get, op_modify,
    op_emit, op_call, op_panic, outcome, state, trace in *.

Ltac op_step :=
  cbv beta iota zeta delta
    [log mbind Op_bind op_bind mret Op_ret op_ret op_get op_modify op_emit
     op_call op_panic outcome state trace fst snd].

(** *** Go integers *)

Lemma wrap_in_range (z : Z) : GoInt.in_range z -> GoInt.wrap z = z.
Proof.
  unfold GoInt.in_range, GoInt.wrap, GoInt.min_int, GoInt.max_int.
  intros Hz. rewrite Z.mod_small; lia.
Qed.

Lemma wrap_is_in_range (z : Z) : GoInt.in_range (GoInt.wrap z).
Proof.
  unfold GoInt.in_range, GoInt.wrap, GoInt.min_int, GoInt.max_int.
  pose proof (Z.mod_pos_bound (z + 2 ^ 63) (2 ^ 64)). lia.
Qed.

(** *** utils: processes *)

(** C10. A pid that is zero or negative never reaches the process table:
    [IsProcessRunning] answers false and [KillProcess] answers with the
    error "invalid PID", both with an empty trace. Hence a service manager
    that has been stopped (its recorded PID is 0 and its command handle is
    gone) is reported unhealthy without any probe, and stopping it again
    sends no signal. *)
Theorem nonpositive_pid_is_rejected (env : Env) (pid : Z) (sm : ServiceManager.t) :
  pid <= 0 ->
  utils.IsProcessRunning env pid = (false, []) /\
  utils.KillProcess env pid = (Some ("invalid PID: " +:+ pretty pid), []) /\
  let stopped := state (ServiceManager.Stop env sm) in
  ServiceStatus.PID (ServiceManager.status stopped) = 0 /\
  ServiceManager.cmd stopped = None /\
  utils.IsProcessRunning env (ServiceStatus.PID (ServiceManager.status stopped))
    = (false, []) /\
  ServiceManager.IsHealthy env stopped = (Returned false, stopped, []) /\
  filter is_signal (trace (ServiceManager.Stop env stopped)) = [].
Proof.
  intros Hpid.
  assert (Hrun : forall p, p <= 0 -> utils.IsProcessRunning env p = (false, [])).
  { intros p Hp. unfold utils.IsProcessRunning. by rewrite bool_decide_true. }
  split; [by apply Hrun|]. split.
  { unfold utils.KillProcess. by rewrite bool_decide_true. }
  unfold ServiceManager.Stop, ServiceManager.IsHealthy. op_unfold.
  destruct sm as [n c st [p|] fc cu bs]; simpl.
  - destruct (utils.KillProcess env p) as [[e|] tr]; simpl; repeat split; auto.
  - repeat split; auto.
Qed.

Lemma nonpositive_pid_is_rejected_witness :
  0 <= 0 /\
  utils.IsProcessRunning (Fixtures.host [] 4242) 0 = (false, []) /\
  utils.KillProcess (Fixtures.host [] 4242) 0 = (Some "invalid PID: 0", []).
Proof.
  destruct (nonpositive_pid_is_rejected (Fixtures.host [] 4242) 0 Fixtures.running)
    as (Hrun & Hkill & _); [lia|].
  split; [lia|]. split; [exact Hrun|exact Hkill].
Defined.

(** *** utils: ports *)

(** The second pass never reads [usedPorts]. *)
Lemma resolve_conflicts_ignores_usedPorts (env : Env)
    (services : gmap string utils.ServiceConfig) (order : list string)
    (portAssignments : gmap string Z) (usedPorts usedPorts' : gmap Z bool) :
  utils.resolve_conflicts env services order portAssignments usedPorts
  = utils.resolve_conflicts env services order portAssignments usedPorts'.
Proof.
  revert portAssignments usedPorts usedPorts'.
  induction order as [|name order IH]; intros pa u u'; simpl; [reflexivity|].
  destruct (services !! name) as [service|]; [|apply IH].
  destruct (pa !! name); [apply IH|].
  destruct (utils.FindAvailablePort env _); [apply IH|reflexivity].
Qed.

(** C1. Service api asks for local port 9000 and service web for 9001,
    on a host where 9000 is taken and 9001 is free. Whatever the order in
    which the two passes visit the services, [ResolvePortConflicts]
    succeeds and gives both of them port 9001: the first pass reserves
    9001 for web, and the second pass searches upwards from 9000 for api
    without consulting [usedPorts]. *)
Theorem ResolvePortConflicts_assigns_one_port_twice :
  Forall (fun order1 => Forall (fun order2 =>
    exists ports,
      utils.ResolvePortConflicts (Fixtures.host [9000] 4242) order1 order2
        Fixtures.neighbours = inl ports /\
      ports !! "api" = Some 9001 /\ ports !! "web" = Some 9001)
    Fixtures.neighbour_orders) Fixtures.neighbour_orders.
Proof.
  repeat constructor;
    (eexists; split; [vm_compute; reflexivity | split; vm_compute; reflexivity]).
Qed.

(** *** ServiceManager: building blocks *)

Lemma handleFailure_eq (now : Time) (sm : ServiceManager.t) :
  ServiceManager.backoffSeconds sm = ServiceManager.ladder ->
  ServiceManager.handleFailure now sm =
  let f := GoInt.incr (ServiceManager.failureCount sm) in
  if bool_decide (f < 3) then
    (Returned tt, ServiceManager.set_failureCount f sm, [])
  else
    (Returned tt,
     ServiceManager.set_cooldownUntil
       (now + Spec.backoff_seconds f * 1000000000)
       (ServiceManager.set_failureCount f sm),
     [EvLog LevelWarn "Service %s failed %d times, entering cooldown for %v"]).
Proof.
  intros Hladder. destruct sm as [n c st cm fc cu bs]. simpl in Hladder. subst bs.
  unfold ServiceManager.handleFailure. op_unfold. simpl.
  pose proof (wrap_is_in_range (fc + 1)) as Hf.
  unfold GoInt.incr, GoInt.add. set (f := GoInt.wrap (fc + 1)) in *.
  case_bool_decide as Hlt; [reflexivity|].
  unfold GoInt.sub. rewrite (wrap_in_range (f - 3)); last first.
  { unfold GoInt.in_range, GoInt.min_int, GoInt.max_int in *. lia. }
  unfold ServiceManager.backoff_at, Spec.backoff_seconds, time.Add, time.Seconds,
    time.Second.
  assert (Hcase : f - 3 = 0 \/ f - 3 = 1 \/ f - 3 = 2 \/ f - 3 = 3 \/ f - 3 = 4
                 \/ 5 <= f - 3) by lia.
  destruct Hcase as [E|[E|[E|[E|[E|E]]]]].
  1-5: rewrite E; reflexivity.
  rewrite (bool_decide_true (_ <= f - 3)) by (simpl; lia).
  rewrite Z.min_r by lia. reflexivity.
Qed.

Lemma Stop_eq (env : Env) (sm : ServiceManager.t) :
  ServiceManager.Stop env sm =
  (Returned None, Spec.stopped sm,
   Spec.kill_trace env sm ++ [EvLog LevelInfo "Stopped port-forward for %s"]).
Proof.
  unfold ServiceManager.Stop, Spec.stopped, Spec.kill_trace. op_unfold.
  destruct sm as [n c st [pid|] fc cu bs]; simpl; [|reflexivity].
  destruct (utils.KillProcess env pid) as [[e|] tr]; simpl;
    rewrite ?app_nil_r; reflexivity.
Qed.

Lemma kill_trace_no_spawn (env : Env) (sm : ServiceManager.t) :
  filter is_spawn (Spec.kill_trace env sm) = [].
Proof.
  unfold Spec.kill_trace. destruct (ServiceManager.cmd sm) as [pid|]; [|reflexivity].
  unfold utils.KillProcess.
  repeat (case_bool_decide || case_match); reflexivity.
Qed.

Lemma Start_in_cooldown (env : Env) (now0 now1 : Time) (sm : ServiceManager.t) :
  now0 < ServiceManager.cooldownUntil sm ->
  ServiceManager.Start env now0 now1 sm =
  (Returned (Some ("service " +:+ ServiceManager.name sm +:+ " is in cooldown until "
                   +:+ ServiceManager.formatTime (ServiceManager.cooldownUntil sm))),
   Spec.refused sm, []).
Proof.
  intros Hcool. unfold ServiceManager.Start, Spec.refused. op_unfold.
  unfold ServiceManager.isInCooldown, time.Before.
  rewrite bool_decide_true by done. reflexivity.
Qed.

Lemma Restart_eq (env : Env) (now0 now1 : Time) (sm : ServiceManager.t) :
  ServiceManager.Restart env now0 now1 sm =
  match ServiceManager.Start env now0 now1 (Spec.counted (Spec.stopped sm)) with
  | (r, sm', tr) =>
      (r, sm',
       EvLog LevelInfo "Restarting service %s"
       :: (Spec.kill_trace env sm ++ [EvLog LevelInfo "Stopped port-forward for %s"])
       ++ tr)
  end.
Proof.
  unfold ServiceManager.Restart. op_step. rewrite Stop_eq. op_step.
  fold (Spec.counted (Spec.stopped sm)).
  destruct (ServiceManager.Start env now0 now1 (Spec.counted (Spec.stopped sm)))
    as [[r sm'] tr].
  simpl. reflexivity.
Qed.

(** *** ServiceManager: backoff *)

(** C4. Let [f] be the failure count that [handleFailure] reaches. Below
    the threshold 3 the call sets no cooldown: [cooldownUntil] is left as
    it was. From 3 on, [cooldownUntil] becomes the clock reading plus
    [ladder[min(f - 3, 4)]] seconds with ladder 5, 10, 20, 40, 60, and the
    manager is in cooldown exactly at the instants before it; from 7 on
    the duration is 60 seconds. *)
Theorem handleFailure_backoff_ladder (now : Time) (sm : ServiceManager.t) :
  ServiceManager.backoffSeconds sm = ServiceManager.ladder ->
  let f := GoInt.incr (ServiceManager.failureCount sm) in
  let r := ServiceManager.handleFailure now sm in
  outcome r = Returned tt /\
  ServiceManager.failureCount (state r) = f /\
  (f < 3 ->
     ServiceManager.cooldownUntil (state r) = ServiceManager.cooldownUntil sm) /\
  (3 <= f ->
     ServiceManager.ladder !! Z.to_nat (Z.min (f - 3) 4)
       = Some (Spec.backoff_seconds f) /\
     ServiceManager.cooldownUntil (state r)
       = now + Spec.backoff_seconds f * time.Second /\
     forall t, ServiceManager.isInCooldown t (state r) = true
               <-> t < now + Spec.backoff_seconds f * time.Second) /\
  (7 <= f ->
     ServiceManager.cooldownUntil (state r) = now + 60 * time.Second).
Proof.
  intros Hladder f r. subst r. rewrite (handleFailure_eq _ _ Hladder).
  fold f. cbv zeta. op_unfold.
  case_bool_decide as Hlt; simpl.
  - repeat split; try lia.
  - split; [done|]. split; [by destruct sm|]. split; [lia|].
    assert (Hlookup : forall g, 3 <= g ->
      ServiceManager.ladder !! Z.to_nat (Z.min (g - 3) 4)
        = Some (Spec.backoff_seconds g)).
    { intros g Hg. unfold Spec.backoff_seconds.
      assert (Hcase : g - 3 = 0 \/ g - 3 = 1 \/ g - 3 = 2 \/ g - 3 = 3 \/ 4 <= g - 3)
        by lia.
      destruct Hcase as [E|[E|[E|[E|E]]]].
      1-4: rewrite E; reflexivity.
      rewrite Z.min_r by lia. reflexivity. }
    split.
    + intros Hge. split; [by apply Hlookup|]. split; [by destruct sm|].
      intros t. unfold ServiceManager.isInCooldown, time.Before.
      destruct sm; simpl. apply bool_decide_eq_true.
    + intros Hge. destruct sm; simpl. unfold Spec.backoff_seconds.
      rewrite Z.min_r by lia. reflexivity.
Qed.

Lemma handleFailure_backoff_ladder_witness :
  ServiceManager.backoffSeconds Fixtures.failed_thrice = ServiceManager.ladder /\
  ServiceManager.failureCount
    (state (ServiceManager.handleFailure 400 Fixtures.failed_thrice)) = 4 /\
  ServiceManager.cooldownUntil
    (state (ServiceManager.handleFailure 400 Fixtures.failed_thrice))
    = 400 + 10 * time.Second.
Proof.
  destruct (handleFailure_backoff_ladder 400 Fixtures.failed_thrice)
    as (_ & Hf & _ & Hge & _); [reflexivity|].
  split; [reflexivity|]. split; [exact Hf|].
  destruct Hge as (_ & Hcool & _); [vm_compute; discriminate|].
  exact Hcool.
Defined.

(** *** ServiceManager: cooldown *)

(** C7. A [Start] whose clock reading is strictly before [cooldownUntil]
    returns an error, does nothing to the host (in particular starts no
    child) and marks the status Cooldown with the cooldown flag set. The
    same holds through [Restart]: it stops the child but its trace has no
    spawn, and the status ends as Cooldown. *)
Theorem no_spawn_during_cooldown (env : Env) (now0 now1 : Time)
    (sm : ServiceManager.t) :
  now0 < ServiceManager.cooldownUntil sm ->
  let r := ServiceManager.Start env now0 now1 sm in
  (exists err, outcome r = Returned (Some err)) /\
  trace r = [] /\
  state r = Spec.refused sm /\
  ServiceStatus.Status (ServiceManager.status (state r)) = "Cooldown" /\
  ServiceStatus.InCooldown (ServiceManager.status (state r)) = true /\
  let r' := ServiceManager.Restart env now0 now1 sm in
  (exists err, outcome r' = Returned (Some err)) /\
  filter is_spawn (trace r') = [] /\
  ServiceStatus.Status (ServiceManager.status (state r')) = "Cooldown".
Proof.
  intros Hcool r. subst r. rewrite (Start_in_cooldown _ _ _ _ Hcool).
  split; [by eexists|]. do 4 (split; [done|]).
  rewrite Restart_eq, Start_in_cooldown by (by destruct sm). op_step.
  split; [by eexists|]. split; [|done].
  rewrite app_nil_r, filter_cons_False by (by intros []).
  rewrite filter_app, kill_trace_no_spawn. reflexivity.
Qed.

Lemma no_spawn_during_cooldown_witness :
  302 < ServiceManager.cooldownUntil Fixtures.failed_thrice /\
  trace (ServiceManager.Start (Fixtures.host [] 4242) 302 303 Fixtures.failed_thrice)
    = [] /\
  ServiceStatus.Status (ServiceManager.status
    (state (ServiceManager.Start (Fixtures.host [] 4242) 302 303
              Fixtures.failed_thrice))) = "Cooldown".
Proof.
  assert (Hcool : 302 < ServiceManager.cooldownUntil Fixtures.failed_thrice)
    by (vm_compute; reflexivity).
  destruct (no_spawn_during_cooldown (Fixtures.host [] 4242) 302 303
              Fixtures.failed_thrice Hcool) as (_ & Htrace & _ & Hstatus & _).
  split; [exact Hcool|]. split; [exact Htrace|exact Hstatus].
Defined.

(** *** ServiceManager: restart *)

Lemma resolvePort_state (env : Env) (sm : ServiceManager.t) :
  exists r tr, ServiceManager.resolvePort env sm = (Returned r, sm, tr).
Proof.
  unfold ServiceManager.resolvePort. op_step.
  destruct (utils.IsPortAvailable env _); [by do 2 eexists|].
  destruct (utils.FindAvailablePort env _); by do 2 eexists.
Qed.

(** [Start] neither reads nor writes [RestartCount]. *)
Lemma Start_RestartCount (env : Env) (now0 now1 : Time) (v : Z)
    (sm : ServiceManager.t) :
  ServiceManager.Start env now0 now1
    (ServiceManager.set_status (ServiceStatus.set_RestartCount v) sm) =
  match ServiceManager.Start env now0 now1 sm with
  | (r, sm', tr) =>
      (r, ServiceManager.set_status (ServiceStatus.set_RestartCount v) sm', tr)
  end.
Proof.
  destruct sm as [n c [sn ss sl sp st rc le ic cu'] cm fc cu bs].
  unfold ServiceManager.Start, ServiceManager.resolvePort,
    ServiceManager.handleFailure, ServiceManager.backoff_at,
    ServiceManager.isInCooldown, utils.StartKubectlPortForward.
  op_unfold. simpl.
  destruct (time.Before now0 cu); [reflexivity|].
  destruct (utils.IsPortAvailable env _); simpl.
  - destruct (kubectlStart env _ _ _ _); simpl; [reflexivity|].
    repeat (case_bool_decide || case_match); simplify_eq; reflexivity.
  - destruct (utils.FindAvailablePort env _); simpl; [|reflexivity].
    destruct (kubectlStart env _ _ _ _); simpl; [reflexivity|].
    repeat (case_bool_decide || case_match); simplify_eq; reflexivity.
Qed.

(** C8. [Restart] is [Stop] followed by [Start] with one [RestartCount++]
    in between: the outcome is that of the sequence, the final state is
    that of the sequence (so the child process, [cmd], is the same) with
    [RestartCount] incremented once, and the trace is that of the
    sequence after the line that announces the restart. The increment is
    Go's [++]: below the largest [int] the count is one greater. *)
Theorem Restart_is_Stop_then_Start (env : Env) (now0 now1 : Time)
    (sm : ServiceManager.t) :
  let r := ServiceManager.Restart env now0 now1 sm in
  let q := (ServiceManager.Stop env;; ServiceManager.Start env now0 now1) sm in
  let count := ServiceStatus.RestartCount (ServiceManager.status sm) in
  outcome r = outcome q /\
  state r = ServiceManager.set_status
              (ServiceStatus.set_RestartCount (GoInt.incr count)) (state q) /\
  ServiceManager.cmd (state r) = ServiceManager.cmd (state q) /\
  trace r = EvLog LevelInfo "Restarting service %s" :: trace q /\
  ServiceStatus.RestartCount (ServiceManager.status (state r)) = GoInt.incr count /\
  (GoInt.min_int <= count < GoInt.max_int ->
   ServiceStatus.RestartCount (ServiceManager.status (state r)) = count + 1).
Proof.
  intros r q count. subst r q.
  assert (Hcounted : Spec.counted (Spec.stopped sm)
    = ServiceManager.set_status
        (ServiceStatus.set_RestartCount (GoInt.incr count)) (Spec.stopped sm)).
  { subst count. by destruct sm as [n c [] cm fc cu bs]. }
  rewrite Restart_eq, Hcounted, Start_RestartCount.
  op_step. rewrite Stop_eq. op_step.
  destruct (ServiceManager.Start env now0 now1 (Spec.stopped sm))
    as [[o sm'] tr].
  assert (Hcount : ServiceStatus.RestartCount (ServiceManager.status
            (ServiceManager.set_status
               (ServiceStatus.set_RestartCount (GoInt.incr count)) sm'))
          = GoInt.incr count) by reflexivity.
  do 4 (split; [reflexivity|]). split; [exact Hcount|].
  intros Hrange. rewrite Hcount. unfold GoInt.incr, GoInt.add.
  apply wrap_in_range. unfold GoInt.in_range. lia.
Qed.

Lemma Restart_is_Stop_then_Start_witness :
  ServiceManager.cmd (state (ServiceManager.Restart (Fixtures.host [] 4243) 300 301
                               Fixtures.running)) = Some 4243 /\
  ServiceStatus.RestartCount (ServiceManager.status
    (state (ServiceManager.Restart (Fixtures.host [] 4243) 300 301 Fixtures.running)))
  = 1.
Proof.
  destruct (Restart_is_Stop_then_Start (Fixtures.host [] 4243) 300 301
              Fixtures.running) as (_ & _ & Hcmd & _ & _ & Hcount).
  split; [rewrite Hcmd; reflexivity|].
  rewrite Hcount; [reflexivity|]. vm_compute. split; [discriminate|reflexivity].
Defined.

(** *** ServiceManager: start *)

(** C3, as the code has it. [Start] has no test for a child that is
    already running: in every state outside cooldown (a Running one
    included) it arbitrates the port again and starts a child. When that
    child starts, [Start] returns nil and the status is Running with the
    new child's pid, port and start time and with the error cleared. *)
Theorem Start_spawns_outside_cooldown (env : Env) (now0 now1 : Time)
    (sm : ServiceManager.t) (port pid : Z) :
  ServiceManager.isInCooldown now0 sm = false ->
  outcome (ServiceManager.resolvePort env sm) = Returned (inl port) ->
  kubectlStart env (Service.Namespace (ServiceManager.config sm))
    (Service.Target (ServiceManager.config sm)) port
    (Service.TargetPort (ServiceManager.config sm)) = inl pid ->
  ServiceManager.Start env now0 now1 sm =
  (Returned None, Spec.started port pid now1 sm,
   trace (ServiceManager.resolvePort env sm)
   ++ [EvSpawn (Service.Namespace (ServiceManager.config sm))
         (Service.Target (ServiceManager.config sm)) port
         (Service.TargetPort (ServiceManager.config sm));
       EvLog LevelInfo "Started port-forward for %s: %s:%d -> %d"]).
Proof.
  intros Hcool Hport Hspawn.
  destruct (resolvePort_state env sm) as (r & tr & Hr).
  rewrite Hr in Hport |- *. simpl in Hport. injection Hport as ->.
  unfold ServiceManager.Start. op_step. rewrite Hcool, Hr. op_step.
  unfold utils.StartKubectlPortForward. rewrite Hspawn. simpl.
  by destruct sm as [n c [] cm fc cu bs].
Qed.

Lemma Start_spawns_outside_cooldown_witness :
  ServiceStatus.Status (ServiceManager.status Fixtures.running) = "Running" /\
  ServiceManager.isInCooldown 200 Fixtures.running = false /\
  ServiceManager.Start (Fixtures.host [9000] 4243) 200 201 Fixtures.running =
  (Returned None, Spec.started 9001 4243 201 Fixtures.running,
   [EvLog LevelWarn "Port %d is in use for %s, using port %d instead";
    EvSpawn "default" "service/api" 9001 8080;
    EvLog LevelInfo "Started port-forward for %s: %s:%d -> %d"]).
Proof.
  split; [reflexivity|]. split; [reflexivity|].
  rewrite (Start_spawns_outside_cooldown (Fixtures.host [9000] 4243) 200 201
             Fixtures.running 9001 4243);
    [reflexivity | reflexivity | vm_compute; reflexivity | reflexivity].
Defined.

(** C3, refuted. The service runs as pid 4242 on port 9000, which its
    child therefore holds. A second [Start] returns nil, yet it has
    started a second child (pid 4243, on port 9001) and the state is no
    longer the one the first [Start] left. *)
Lemma Start_twice_spawns_twice :
  let first := ServiceManager.Start (Fixtures.host [] 4242) 100 101 Fixtures.fresh in
  let second := ServiceManager.Start (Fixtures.host [9000] 4243) 200 201 (state first) in
  ServiceStatus.Status (ServiceManager.status (state first)) = "Running" /\
  outcome second = Returned None /\
  filter is_spawn (trace second) = [EvSpawn "default" "service/api" 9001 8080] /\
  ServiceManager.cmd (state first) = Some 4242 /\
  ServiceManager.cmd (state second) = Some 4243 /\
  state second <> state first.
Proof.
  cbv zeta. repeat split; try (vm_compute; reflexivity).
  intros Heq. apply (f_equal ServiceManager.cmd) in Heq. vm_compute in Heq.
  discriminate.
Qed.

(** *** ServiceManager: health *)

Lemma IsProcessRunning_no_kill (env : Env) (pid : Z) :
  filter is_kill (snd (utils.IsProcessRunning env pid)) = [].
Proof.
  unfold utils.IsProcessRunning, utils.isProcessRunningWindows.
  repeat (case_bool_decide || case_match); reflexivity.
Qed.

Lemma IsHealthy_state (env : Env) (sm : ServiceManager.t) :
  exists healthy tr, ServiceManager.IsHealthy env sm = (Returned healthy, sm, tr).
Proof.
  unfold ServiceManager.IsHealthy. op_step.
  destruct (ServiceManager.cmd sm) as [pid|]; [|by do 2 eexists].
  destruct (utils.IsProcessRunning env pid) as [[] tr]; by do 2 eexists.
Qed.

Lemma IsHealthy_no_kill (env : Env) (sm : ServiceManager.t) :
  filter is_kill (trace (ServiceManager.IsHealthy env sm)) = [].
Proof.
  unfold ServiceManager.IsHealthy. op_step.
  destruct (ServiceManager.cmd sm) as [pid|]; [|reflexivity].
  pose proof (IsProcessRunning_no_kill env pid) as Hk.
  destruct (utils.IsProcessRunning env pid) as [[] tr]; simpl in *;
    by rewrite app_nil_r.
Qed.

(** C5, as the code has it. When the status is Running and the health
    probe fails, [GetStatus] returns and records the status Failed with
    the error "Health check failed". The read itself does nothing to the
    child: its trace is the probe's, with no request to terminate, and
    the command handle is kept. The child is terminated by the [Stop]
    with which the following [Restart] begins. *)
Theorem GetStatus_demotes_without_killing (env : Env) (sm : ServiceManager.t)
    (now0 now1 : Time) :
  ServiceStatus.Status (ServiceManager.status sm) = "Running" ->
  outcome (ServiceManager.IsHealthy env sm) = Returned false ->
  ServiceManager.GetStatus env sm =
    (Returned (ServiceManager.status (Spec.demoted sm)), Spec.demoted sm,
     trace (ServiceManager.IsHealthy env sm)) /\
  ServiceStatus.Status (ServiceManager.status (Spec.demoted sm)) = "Failed" /\
  ServiceStatus.LastError (ServiceManager.status (Spec.demoted sm))
    = "Health check failed" /\
  filter is_kill (trace (ServiceManager.GetStatus env sm)) = [] /\
  ServiceManager.cmd (Spec.demoted sm) = ServiceManager.cmd sm /\
  exists rest,
    trace (ServiceManager.Restart env now0 now1 (Spec.demoted sm)) =
    EvLog LevelInfo "Restarting service %s" :: Spec.kill_trace env sm ++ rest.
Proof.
  intros Hrunning Hprobe.
  pose proof (IsHealthy_no_kill env sm) as Hnokill.
  destruct (IsHealthy_state env sm) as (healthy & probe & Hh).
  rewrite Hh in Hprobe, Hnokill |- *. simpl in Hprobe, Hnokill.
  injection Hprobe as ->.
  assert (Hget : ServiceManager.GetStatus env sm =
    (Returned (ServiceManager.status (Spec.demoted sm)), Spec.demoted sm, probe)).
  { unfold ServiceManager.GetStatus. op_step. rewrite Hrunning.
    change (String.eqb "Running" "Running") with true. op_step.
    rewrite Hh. simpl. by rewrite ?app_nil_r. }
  split; [exact Hget|]. do 2 (split; [reflexivity|]).
  split; [by rewrite Hget|].
  split; [by destruct sm|].
  rewrite Restart_eq.
  destruct (ServiceManager.Start env now0 now1 _) as [[o sm'] tr]. simpl.
  eexists. f_equal. rewrite <- app_assoc.
  replace (Spec.kill_trace env (Spec.demoted sm)) with (Spec.kill_trace env sm)
    by (by destruct sm).
  reflexivity.
Qed.

Lemma GetStatus_demotes_without_killing_witness :
  ServiceStatus.Status (ServiceManager.status Fixtures.running) = "Running" /\
  ServiceManager.GetStatus (Fixtures.host_child_died [9000] 4242) Fixtures.running =
    (Returned (ServiceManager.status (Spec.demoted Fixtures.running)),
     Spec.demoted Fixtures.running, [EvSignal 4242 SigNull]).
Proof.
  split; [reflexivity|].
  destruct (GetStatus_demotes_without_killing
              (Fixtures.host_child_died [9000] 4242) Fixtures.running 300 301)
    as (Hget & _); [reflexivity | reflexivity |].
  rewrite Hget. reflexivity.
Defined.

(** C5, refuted. The service runs as pid 4242 and the child has died.
    The status read reports Failed, but it sends nothing but the null
    probe, keeps the command handle, and leaves the failure count at 0. *)
Lemma GetStatus_neither_kills_nor_counts :
  let r := ServiceManager.GetStatus (Fixtures.host_child_died [9000] 4242)
             Fixtures.running in
  ServiceStatus.Status (ServiceManager.status Fixtures.running) = "Running" /\
  outcome (ServiceManager.IsHealthy (Fixtures.host_child_died [9000] 4242)
             Fixtures.running) = Returned false /\
  ServiceStatus.Status (ServiceManager.status (state r)) = "Failed" /\
  trace r = [EvSignal 4242 SigNull] /\
  ServiceManager.cmd (state r) = Some 4242 /\
  ServiceManager.failureCount Fixtures.running = 0 /\
  ServiceManager.failureCount (state r) = 0.
Proof. cbv zeta. repeat split; vm_compute; reflexivity. Qed.

(** *** ServiceManager: recovery *)

(** C6. The service failed to start once (failure count 1) and is then
    started on a host where kubectl runs. [Start] returns nil, the status
    is Running with the error cleared and the start time recorded, and
    the failure count is still 1: [resetFailureCount] is not called. *)
Theorem Start_success_keeps_failureCount :
  let r := ServiceManager.Start (Fixtures.host [] 4242) 200 201 Fixtures.failed_once in
  ServiceManager.failureCount Fixtures.failed_once = 1 /\
  outcome r = Returned None /\
  ServiceStatus.Status (ServiceManager.status (state r)) = "Running" /\
  ServiceStatus.LastError (ServiceManager.status (state r)) = "" /\
  ServiceStatus.StartTime (ServiceManager.status (state r)) = 201 /\
  ServiceManager.failureCount (state r) = 1 /\
  ServiceManager.failureCount
    (state (ServiceManager.resetFailureCount (state r))) = 0.
Proof. cbv zeta. repeat split; vm_compute; reflexivity. Qed.

(** *** Manager: building blocks *)

(** A loop whose body always returns and leaves a component [f] of the
    state alone does the same. *)
Lemma for_each_frame {S X : Type} (f : S -> X) (body : string -> Op S unit) :
  (forall k s, exists s' tr, body k s = (Returned tt, s', tr) /\ f s' = f s) ->
  forall order s,
    exists s' tr, for_each order body s = (Returned tt, s', tr) /\ f s' = f s.
Proof.
  intros Hbody order. induction order as [|k order IH]; intros s; simpl.
  - by exists s, [].
  - op_step. destruct (Hbody k s) as (s1 & t1 & -> & F1).
    destruct (IH s1) as (s2 & t2 & -> & F2).
    exists s2, (t1 ++ t2). split; [reflexivity|congruence].
Qed.

(** A component [f] of the state that both halves of a sequence leave
    alone is left alone by the sequence, whether or not it panics. *)
Lemma op_bind_frame {S A B X : Type} (f : S -> X) (m : Op S A) (k : A -> Op S B)
    (s : S) :
  f (state (m s)) = f s ->
  (forall a s', f (state (k a s')) = f s') ->
  f (state ((m ≫= k) s)) = f s.
Proof.
  intros Hm Hk. op_unfold. destruct (m s) as [[[a|msg] s1] t1]; simpl in *.
  - specialize (Hk a s1). destruct (k a s1) as [[r s2] t2]. simpl in *. congruence.
  - exact Hm.
Qed.

Section ManagerLemmas.
Context {H : Type} `{UIHandler H}.

Lemma collect_status_frame (env : Env) (order : list string)
    (statusMap : gmap string ServiceStatus.t) (m : Manager.t H) :
  Manager.kubernetesContext (state (Manager.collect_status env order statusMap m))
  = Manager.kubernetesContext m.
Proof.
  revert statusMap m. induction order as [|name order IH]; intros statusMap m;
    [reflexivity|].
  simpl. apply (op_bind_frame Manager.kubernetesContext); [reflexivity|].
  clear m. intros m0 m.
  destruct (Manager.services m0 !! name) as [sm|]; [|apply IH].
  apply (op_bind_frame Manager.kubernetesContext).
  - unfold Manager.on_service.
    by destruct (ServiceManager.GetStatus env sm) as [[r sm'] tr].
  - intros status m1. apply (op_bind_frame Manager.kubernetesContext);
      [|intros _ m2; apply IH].
    destruct (_ && _); reflexivity.
Qed.

Lemma monitor_handler_frame (get : Manager.t H -> Iface H)
    (set : Iface H -> Manager.t H -> Manager.t H)
    (statusMap : gmap string ServiceStatus.t) (m : Manager.t H) :
  (forall v m, Manager.kubernetesContext (set v m) = Manager.kubernetesContext m) ->
  Manager.kubernetesContext (state (Manager.monitor_handler get set statusMap m))
  = Manager.kubernetesContext m.
Proof.
  intros Hset. unfold Manager.monitor_handler.
  apply (op_bind_frame Manager.kubernetesContext); [reflexivity|].
  clear m. intros m0 m.
  destruct (Manager.usable (get m0)) as [h|]; [|reflexivity].
  destruct (MonitorServices _ _ h) as [h' tr]. apply Hset.
Qed.

Lemma monitorServices_frame (env : Env) (order : list string) (m : Manager.t H) :
  Manager.kubernetesContext (state (Manager.monitorServices env order m))
  = Manager.kubernetesContext m.
Proof.
  unfold Manager.monitorServices.
  apply (op_bind_frame Manager.kubernetesContext); [apply collect_status_frame|].
  intros statusMap m1.
  apply (op_bind_frame Manager.kubernetesContext).
  - unfold Manager.monitorUIHandlers.
    apply (op_bind_frame Manager.kubernetesContext).
    + by apply monitor_handler_frame.
    + intros _ m2. by apply monitor_handler_frame.
  - intros _ m2. unfold Manager.on_statusChan, Chan.try_send.
    repeat (case_bool_decide || case_match); simplify_eq; reflexivity.
Qed.

Lemma stop_handler_frame (get : Manager.t H -> Iface H)
    (set : Iface H -> Manager.t H -> Manager.t H) (order : list string)
    (format : string) (m : Manager.t H) :
  (forall v m, Manager.statusChan (set v m) = Manager.statusChan m) ->
  exists m' tr,
    Manager.stop_handler get set order format m = (Returned tt, m', tr) /\
    Manager.statusChan m' = Manager.statusChan m.
Proof.
  intros Hset. unfold Manager.stop_handler. op_step.
  destruct (Manager.usable (get m)); [|by exists m, []].
  match goal with
  | |- context [for_each ?o ?b ?s] =>
      assert (Hb : forall k s, exists s' tr,
                b k s = (Returned tt, s', tr)
                /\ Manager.statusChan s' = Manager.statusChan s);
      [|destruct (for_each_frame Manager.statusChan b Hb o s) as (m' & tr & -> & F)]
  end.
  - clear m. intros k m.
    destruct (Manager.services m !! k); [|by exists m, []].
    destruct (get m) as [| |h0]; [by exists m, [] | by exists m, [] |].
    destruct (StopService k h0) as [[[e|] h'] tr];
      do 2 eexists; (split; [reflexivity|apply Hset]).
  - by exists m', tr.
Qed.

Lemma stop_services_frame (env : Env) (order : list string) (m : Manager.t H) :
  exists m' tr,
    Manager.stop_services env order m = (Returned tt, m', tr) /\
    Manager.statusChan m' = Manager.statusChan m.
Proof.
  unfold Manager.stop_services.
  apply (for_each_frame Manager.statusChan). clear m.
  intros k m. op_step.
  destruct (Manager.services m !! k) as [sm|]; [|by exists m, []].
  unfold Manager.on_service. rewrite Stop_eq.
  do 2 eexists. split; reflexivity.
Qed.

(** [Stop] runs up to [close(m.statusChan)] whatever the state; there it
    returns if the channel was open and panics if it was closed. *)
Lemma Manager_Stop_cases (env : Env) (order1 order2 order3 : list string)
    (m : Manager.t H) :
  exists m' tr,
    Manager.statusChan m' = Manager.statusChan m /\
    Manager.Stop env order1 order2 order3 m =
    if Chan.closed (Manager.statusChan m) then
      (Panicked "close of closed channel", Manager.set_cancelled true m', tr)
    else
      (Returned None,
       Manager.set_statusChan
         (Chan.mk (Chan.buffer (Manager.statusChan m))
                  (Chan.capacity (Manager.statusChan m)) true)
         (Manager.set_cancelled true m'),
       tr ++ [EvLog LevelInfo "Stopped all port-forward services"]).
Proof.
  unfold Manager.Stop. op_step.
  destruct (Manager.monitoringTicker m); op_step.
  all: match goal with
       | |- context [Manager.stop_handler Manager.grpcUIHandler _ _ _ ?m1] =>
           destruct (stop_handler_frame Manager.grpcUIHandler
                       Manager.set_grpcUIHandler order1
                       "Failed to stop gRPC UI for %s: %v" m1)
             as (m2 & t2 & -> & F2); [done|]; op_step
       end.
  all: destruct (stop_handler_frame Manager.swaggerUIHandler
                   Manager.set_swaggerUIHandler order2
                   "Failed to stop Swagger UI for %s: %v" m2)
         as (m3 & t3 & -> & F3); [done|]; op_step.
  all: destruct (stop_services_frame env order3 m3) as (m4 & t4 & -> & F4).
  all: exists m4, (t2 ++ t3 ++ t4).
  all: split; [simpl in *; congruence|].
  all: unfold Manager.on_statusChan, Chan.close; simpl.
  all: replace (Manager.statusChan m4) with (Manager.statusChan m)
         by (simpl in *; congruence).
  all: destruct (Chan.closed (Manager.statusChan m)); simpl.
  all: rewrite ?app_nil_r, <- ?app_assoc; try done.
  all: assert (E : Manager.statusChan m = Manager.statusChan m4)
         by (simpl in *; congruence).
  all: rewrite E; by destruct m4.
Qed.

(** *** Manager: stop *)

(** C2, as the code has it. A [Stop] on a manager whose status channel
    is open returns nil and leaves the context cancelled and the status
    channel closed. Any further [Stop] panics on closing the channel a
    second time: [Stop] is to be called once. *)
Theorem Manager_Stop_only_once (env : Env)
    (order1 order2 order3 order1' order2' order3' : list string)
    (m : Manager.t H) :
  Chan.closed (Manager.statusChan m) = false ->
  let first := Manager.Stop env order1 order2 order3 m in
  let second := Manager.Stop env order1' order2' order3' (state first) in
  outcome first = Returned None /\
  Manager.cancelled (state first) = true /\
  Chan.closed (Manager.statusChan (state first)) = true /\
  outcome second = Panicked "close of closed channel".
Proof.
  intros Hopen first second. subst first second.
  destruct (Manager_Stop_cases env order1 order2 order3 m) as (m' & tr & F & ->).
  rewrite Hopen. simpl. do 3 (split; [reflexivity|]).
  match goal with
  | |- context [Manager.Stop env order1' order2' order3' ?m1] =>
      destruct (Manager_Stop_cases env order1' order2' order3' m1)
        as (m'' & tr' & F' & ->)
  end.
  reflexivity.
Qed.

(** *** Manager: context *)

(** C9. When [kubectl config current-context] fails, the context check
    logs the error and does nothing else: the manager, and with it the
    remembered context and every service manager, is unchanged, and no
    restart is dispatched. A whole tick is then the monitoring pass
    followed by that one log line, and it ends with the context that was
    remembered when it began. *)
Theorem failed_context_read_is_no_change (env : Env) (order : list string)
    (m : Manager.t H) (err : error) :
  kubectlCurrentContext env = inr err ->
  Manager.checkKubernetesContext env m =
    (Returned tt, m, [EvLog LevelError "Failed to get Kubernetes context: %v"]) /\
  Manager.tick env order m =
    match Manager.monitorServices env order m with
    | (Returned _, m', tr) =>
        (Returned tt, m',
         tr ++ [EvLog LevelError "Failed to get Kubernetes context: %v"])
    | (Panicked msg, m', tr) => (Panicked msg, m', tr)
    end /\
  Manager.kubernetesContext (state (Manager.tick env order m))
  = Manager.kubernetesContext m.
Proof.
  intros Hfail.
  assert (Hcheck : forall m0 : Manager.t H, Manager.checkKubernetesContext env m0 =
    (Returned tt, m0, [EvLog LevelError "Failed to get Kubernetes context: %v"])).
  { intros m0. unfold Manager.checkKubernetesContext,
      Manager.getCurrentKubernetesContext. by rewrite Hfail. }
  split; [apply Hcheck|].
  pose proof (monitorServices_frame env order m) as Hframe.
  unfold Manager.tick. op_step.
  destruct (Manager.monitorServices env order m) as [[[[]|msg] m'] tr];
    [|by split].
  rewrite Hcheck. by split.
Qed.

End ManagerLemmas.

Lemma Manager_Stop_only_once_witness :
  Chan.closed (Manager.statusChan Fixtures.started) = false /\
  outcome (Manager.Stop (Fixtures.host [] 4242) ["api"] ["api"] ["api"]
             Fixtures.started) = Returned None.
Proof.
  split; [reflexivity|].
  destruct (Manager_Stop_only_once (Fixtures.host [] 4242)
              ["api"] ["api"] ["api"] ["api"] ["api"] ["api"] Fixtures.started)
    as (Hfirst & _); [reflexivity|exact Hfirst].
Defined.

(** C2, refuted. A manager of one running service is stopped: the call
    returns nil and the child gets SIGTERM. The second call panics. *)
Lemma Manager_Stop_twice_panics :
  let first := Manager.Stop (Fixtures.host [] 4242) ["api"] ["api"] ["api"]
                 Fixtures.started in
  let second := Manager.Stop (Fixtures.host [] 4242) ["api"] ["api"] ["api"]
                  (state first) in
  outcome first = Returned None /\
  filter is_kill (trace first) = [EvSignal 4242 SIGTERM] /\
  outcome second = Panicked "close of closed channel".
Proof. cbv zeta. repeat split; vm_compute; reflexivity. Qed.

Lemma failed_context_read_is_no_change_witness :
  kubectlCurrentContext (Fixtures.host_without_kubectl [])
    = inr "exec: kubectl: executable file not found" /\
  Manager.checkKubernetesContext (Fixtures.host_without_kubectl []) Fixtures.started =
    (Returned tt, Fixtures.started,
     [EvLog LevelError "Failed to get Kubernetes context: %v"]).
Proof.
  split; [reflexivity|].
  destruct (failed_context_read_is_no_change (Fixtures.host_without_kubectl [])
              ["api"] Fixtures.started "exec: kubectl: executable file not found")
    as (Hcheck & _); [reflexivity|exact Hcheck].
Defined.

(** ** Further properties of the code *)

(** *** utils: the port search *)

Lemma FindAvailablePort_from_Some (env : Env) (fuel : nat) (port p : Z) :
  utils.FindAvailablePort_from env fuel port = Some p ->
  port <= p < port + Z.of_nat fuel /\
  utils.IsPortAvailable env p = true /\
  forall q, port <= q < p -> utils.IsPortAvailable env q = false.
Proof.
  revert port. induction fuel as [|fuel IH]; intros port; simpl; [done|].
  destruct (utils.IsPortAvailable env port) eqn:Havail.
  - intros [= <-]. repeat split; [lia|lia|done|lia].
  - intros Hrest. destruct (IH _ Hrest) as (Hrange & Hp & Hlow).
    repeat split; [lia|lia|done|].
    intros q Hq. destruct (decide (q = port)) as [->|]; [done|].
    apply Hlow. lia.
Qed.

Lemma FindAvailablePort_from_None (env : Env) (fuel : nat) (port : Z) :
  utils.FindAvailablePort_from env fuel port = None <->
  forall q, port <= q < port + Z.of_nat fuel -> utils.IsPortAvailable env q = false.
Proof.
  revert port. induction fuel as [|fuel IH]; intros port; simpl.
  - split; [intros _ q; lia|done].
  - destruct (utils.IsPortAvailable env port) eqn:Havail.
    + split; [done|]. intros Hall. rewrite Hall in Havail by lia. done.
    + rewrite IH. split; intros Hall q Hq.
      * destruct (decide (q = port)) as [->|]; [done|]. apply Hall. lia.
      * apply Hall. lia.
Qed.

Lemma FindAvailablePort_inl (env : Env) (startPort p : Z) :
  utils.FindAvailablePort env startPort = inl p ->
  startPort <= p <= 65535 /\
  utils.IsPortAvailable env p = true /\
  forall q, startPort <= q < p -> utils.IsPortAvailable env q = false.
Proof.
  unfold utils.FindAvailablePort.
  destruct (utils.FindAvailablePort_from env _ startPort) as [p'|] eqn:Hfind;
    [|done].
  intros [= ->]. apply FindAvailablePort_from_Some in Hfind.
  destruct Hfind as (Hrange & Hp & Hlow). repeat split; [lia|lia|done|done].
Qed.

(** X1. A port that [FindAvailablePort] returns lies between the start
    port and 65535, is available, and is the lowest such port: every port
    from the start port up to it is taken. *)
Theorem FindAvailablePort_lowest_free (env : Env) (startPort p : Z) :
  utils.FindAvailablePort env startPort = inl p ->
  startPort <= p <= 65535 /\
  utils.IsPortAvailable env p = true /\
  forall q, startPort <= q < p -> utils.IsPortAvailable env q = false.
Proof. apply FindAvailablePort_inl. Qed.

Lemma FindAvailablePort_lowest_free_witness :
  utils.FindAvailablePort (Fixtures.host [9000; 9001] 4242) 9000 = inl 9002 /\
  utils.IsPortAvailable (Fixtures.host [9000; 9001] 4242) 9002 = true /\
  utils.IsPortAvailable (Fixtures.host [9000; 9001] 4242) 9001 = false.
Proof.
  assert (Hfind : utils.FindAvailablePort (Fixtures.host [9000; 9001] 4242) 9000
                  = inl 9002) by (vm_compute; reflexivity).
  destruct (FindAvailablePort_lowest_free _ _ _ Hfind) as (_ & Hp & Hlow).
  split; [exact Hfind|]. split; [exact Hp|]. apply Hlow. lia.
Defined.

(** X2. [FindAvailablePort] fails exactly when no port from the start
    port up to 65535 is available; its error then names the start port.
    In particular a start port above 65535 always fails, without a
    probe's answer mattering. *)
Theorem FindAvailablePort_fails_iff_none_free (env : Env) (startPort : Z) :
  (utils.FindAvailablePort env startPort
     = inr ("no available ports found starting from " +:+ pretty startPort)
   <-> forall q, startPort <= q <= 65535 -> utils.IsPortAvailable env q = false) /\
  (forall err, utils.FindAvailablePort env startPort = inr err ->
     err = "no available ports found starting from " +:+ pretty startPort) /\
  (65535 < startPort ->
   utils.FindAvailablePort env startPort
     = inr ("no available ports found starting from " +:+ pretty startPort)).
Proof.
  assert (Hiff : utils.FindAvailablePort env startPort
     = inr ("no available ports found starting from " +:+ pretty startPort)
   <-> forall q, startPort <= q <= 65535 -> utils.IsPortAvailable env q = false).
  { unfold utils.FindAvailablePort.
    destruct (utils.FindAvailablePort_from env _ startPort) as [p|] eqn:Hfind.
    - split; [done|]. intros Hall.
      apply FindAvailablePort_from_Some in Hfind as (Hrange & Hp & _).
      rewrite Hall in Hp by lia. done.
    - split; [|done]. intros _ q Hq.
      apply (proj1 (FindAvailablePort_from_None _ _ _) Hfind). lia. }
  split; [exact Hiff|]. split.
  - unfold utils.FindAvailablePort.
    destruct (utils.FindAvailablePort_from env _ startPort); [done|].
    by intros err [= <-].
  - intros Hhigh. apply Hiff. intros q Hq. lia.
Qed.

Lemma FindAvailablePort_fails_iff_none_free_witness :
  utils.FindAvailablePort (Fixtures.host [] 4242) 70000
  = inr "no available ports found starting from 70000".
Proof.
  destruct (FindAvailablePort_fails_iff_none_free (Fixtures.host [] 4242) 70000)
    as (_ & _ & Hhigh).
  rewrite Hhigh by lia. reflexivity.
Defined.

(** *** utils: bulk port resolution *)

Lemma assign_available_sound (env : Env) (services : gmap string utils.ServiceConfig)
    (order : list string) (acc : gmap string Z * gmap Z bool) :
  Spec.sound_assignment env services acc.1 ->
  Spec.sound_assignment env services
    (foldl (utils.assign_available env services) acc order).1.
Proof.
  revert acc. induction order as [|name order IH]; intros [pa u] Hsound; [done|].
  simpl. apply IH. unfold utils.assign_available.
  destruct (services !! name) as [service|] eqn:Hservice; [|done].
  destruct (utils.IsPortAvailable env _) eqn:Havail; simpl; [|done].
  destruct (negb _); simpl; [|done].
  intros n p. destruct (decide (n = name)) as [->|Hne].
  - rewrite lookup_insert_eq. intros [= <-]. exists service. by repeat split.
  - rewrite lookup_insert_ne by done. apply Hsound.
Qed.

Lemma resolve_conflicts_sound (env : Env) (services : gmap string utils.ServiceConfig)
    (order : list string) (pa res : gmap string Z) (u : gmap Z bool) :
  Spec.sound_assignment env services pa ->
  utils.resolve_conflicts env services order pa u = inl res ->
  Spec.sound_assignment env services res.
Proof.
  revert pa u. induction order as [|name order IH]; intros pa u Hsound; simpl.
  - by intros [= <-].
  - destruct (services !! name) as [service|] eqn:Hservice; [|by apply IH].
    destruct (pa !! name) eqn:Hpa; [by apply IH|].
    destruct (utils.FindAvailablePort env _) as [newPort|err] eqn:Hfind; [|done].
    apply IH. apply FindAvailablePort_inl in Hfind as (Hrange & Hp & _).
    intros n p. destruct (decide (n = name)) as [->|Hne].
    + rewrite lookup_insert_eq. intros [= <-]. exists service.
      repeat split; [done|lia|done].
    + rewrite lookup_insert_ne by done. apply Hsound.
Qed.

Lemma resolve_conflicts_complete (env : Env)
    (services : gmap string utils.ServiceConfig) (order : list string)
    (pa res : gmap string Z) (u : gmap Z bool) :
  utils.resolve_conflicts env services order pa u = inl res ->
  (forall name p, pa !! name = Some p -> res !! name = Some p) /\
  (forall name, name ∈ order -> is_Some (services !! name) -> is_Some (res !! name)).
Proof.
  revert pa u. induction order as [|name order IH]; intros pa u; simpl.
  - intros [= <-]. split; [done|]. intros name Hin. by apply elem_of_nil in Hin.
  - assert (Hskip : forall pa' u',
      (forall n p, pa !! n = Some p -> pa' !! n = Some p) ->
      (is_Some (services !! name) -> is_Some (pa' !! name)) ->
      utils.resolve_conflicts env services order pa' u' = inl res ->
      (forall n p, pa !! n = Some p -> res !! n = Some p) /\
      (forall n, n ∈ name :: order -> is_Some (services !! n) -> is_Some (res !! n))).
    { intros pa' u' Hkeep Hname Hres. destruct (IH _ _ Hres) as (Hkeep' & Hall).
      split; [intros n p Hn; by apply Hkeep', Hkeep|].
      intros n Hin Hn. apply elem_of_cons in Hin as [->|Hin]; [|by apply Hall].
      destruct (Hname Hn) as [p Hp]. exists p. by apply Hkeep'. }
    destruct (services !! name) as [service|] eqn:Hservice.
    + destruct (pa !! name) as [p|] eqn:Hpa.
      * apply Hskip; [done|]. intros _. by exists p.
      * destruct (utils.FindAvailablePort env _) as [newPort|err]; [|done].
        apply Hskip.
        -- intros n p Hn. rewrite lookup_insert_ne; [done|]. congruence.
        -- intros _. exists newPort. apply lookup_insert_eq.
    + apply Hskip; [done|]. by intros [? ?].
Qed.

(** X3. Every port in a successful result of [ResolvePortConflicts]
    belongs to a service of the input, is at or above the port that
    service asked for, and was available on the host when it was
    probed. *)
Theorem ResolvePortConflicts_ports_available (env : Env) (order1 order2 : list string)
    (services : gmap string utils.ServiceConfig) (ports : gmap string Z) :
  utils.ResolvePortConflicts env order1 order2 services = inl ports ->
  Spec.sound_assignment env services ports.
Proof.
  unfold utils.ResolvePortConflicts.
  pose proof (assign_available_sound env services order1 (∅, ∅)) as Hfirst.
  destruct (foldl _ _ order1) as [pa u]. simpl in Hfirst.
  apply resolve_conflicts_sound, Hfirst. intros n p. by rewrite lookup_empty.
Qed.

Lemma ResolvePortConflicts_ports_available_witness :
  exists ports,
    utils.ResolvePortConflicts (Fixtures.host [9000] 4242) ["api"; "web"]
      ["web"; "api"] Fixtures.neighbours = inl ports /\
    Spec.sound_assignment (Fixtures.host [9000] 4242) Fixtures.neighbours ports.
Proof.
  eexists. split; [vm_compute; reflexivity|].
  apply (ResolvePortConflicts_ports_available _ ["api"; "web"] ["web"; "api"]).
  vm_compute. reflexivity.
Defined.

(** X4. When [ResolvePortConflicts] succeeds, every service that the
    second pass visits has a port, and every port that the first pass
    assigned is still the one in the result: the second pass only adds. *)
Theorem ResolvePortConflicts_complete (env : Env) (order1 order2 : list string)
    (services : gmap string utils.ServiceConfig) (ports : gmap string Z) :
  utils.ResolvePortConflicts env order1 order2 services = inl ports ->
  (forall name, name ∈ order2 -> is_Some (services !! name) ->
     is_Some (ports !! name)) /\
  (forall name p,
     (foldl (utils.assign_available env services) (∅, ∅) order1).1 !! name = Some p ->
     ports !! name = Some p).
Proof.
  unfold utils.ResolvePortConflicts.
  destruct (foldl _ _ order1) as [pa u]. simpl.
  intros Hres. destruct (resolve_conflicts_complete _ _ _ _ _ _ Hres). by split.
Qed.

Lemma ResolvePortConflicts_complete_witness :
  exists ports,
    utils.ResolvePortConflicts (Fixtures.host [9000] 4242) ["api"; "web"]
      ["web"; "api"] Fixtures.neighbours = inl ports /\
    is_Some (ports !! "api") /\ ports !! "web" = Some 9001.
Proof.
  eexists. split; [vm_compute; reflexivity|].
  edestruct (ResolvePortConflicts_complete (Fixtures.host [9000] 4242)
               ["api"; "web"] ["web"; "api"] Fixtures.neighbours) as (Hall & Hkeep);
    [vm_compute; reflexivity|].
  split.
  - apply Hall; [rewrite !elem_of_cons; auto|]. vm_compute. eauto.
  - apply Hkeep. vm_compute. reflexivity.
Defined.

(** X5. The first pass of [ResolvePortConflicts] never gives one port to
    two services: its assignments are pairwise distinct, and each
    assigned port is marked in [usedPorts]. *)
Theorem first_pass_ports_distinct (env : Env)
    (services : gmap string utils.ServiceConfig) (order : list string) :
  let first := foldl (utils.assign_available env services) (∅, ∅) order in
  Spec.pairwise_distinct first.1 /\
  forall name p, first.1 !! name = Some p -> utils.used first.2 p = true.
Proof.
  cbv zeta.
  assert (Hgen : forall acc : gmap string Z * gmap Z bool,
    (Spec.pairwise_distinct acc.1 /\
     forall name p, acc.1 !! name = Some p -> utils.used acc.2 p = true) ->
    let r := foldl (utils.assign_available env services) acc order in
    Spec.pairwise_distinct r.1 /\
    forall name p, r.1 !! name = Some p -> utils.used r.2 p = true).
  { induction order as [|name order IH]; intros [pa u] Hinv; [done|].
    simpl. apply IH. destruct Hinv as [Hdist Hused]. simpl in *.
    unfold utils.assign_available.
    destruct (services !! name) as [service|]; [|done].
    destruct (utils.IsPortAvailable env _); simpl; [|done].
    destruct (utils.used u (utils.LocalPort service)) eqn:Hfree; simpl; [done|].
    assert (Hfresh : forall n, pa !! n <> Some (utils.LocalPort service)).
    { intros n Hn. apply Hused in Hn. congruence. }
    split.
    - intros n1 n2 p.
      destruct (decide (n1 = name)) as [->|H1], (decide (n2 = name)) as [->|H2];
        rewrite ?lookup_insert_eq, ?lookup_insert_ne by done; try done.
      + intros [= <-] Hn2. by destruct (Hfresh n2).
      + intros Hn1 [= <-]. by destruct (Hfresh n1).
      + apply Hdist.
    - intros n p. unfold utils.used in *.
      destruct (decide (n = name)) as [->|Hn].
      + rewrite lookup_insert_eq. intros [= <-]. by rewrite lookup_insert_eq.
      + rewrite lookup_insert_ne by done. intros Hp.
        rewrite lookup_insert_ne; [by apply Hused in Hp|].
        intros <-. by destruct (Hfresh n). }
  apply Hgen. simpl. split.
  - intros n1 n2 p. by rewrite lookup_empty.
  - intros n p. by rewrite lookup_empty.
Qed.

Lemma resolve_conflicts_all_assigned (env : Env)
    (services : gmap string utils.ServiceConfig) (order : list string)
    (pa : gmap string Z) (u : gmap Z bool) :
  (forall name, name ∈ order -> is_Some (services !! name) -> is_Some (pa !! name)) ->
  utils.resolve_conflicts env services order pa u = inl pa.
Proof.
  induction order as [|name order IH]; intros Hall; simpl; [done|].
  destruct (services !! name) as [service|] eqn:Hservice.
  - destruct (Hall name) as [p ->]; [set_solver|by eexists|].
    apply IH. intros n Hn. apply Hall. set_solver.
  - apply IH. intros n Hn. apply Hall. set_solver.
Qed.

(** X6. Conflict-free input comes back unchanged: when every port asked
    for is available and no two services ask for the same port,
    [ResolvePortConflicts] succeeds and gives every service it visited
    exactly the port it asked for, and nothing to any other name. *)
Theorem ResolvePortConflicts_conflict_free (env : Env) (order1 order2 : list string)
    (services : gmap string utils.ServiceConfig) :
  (forall name service, services !! name = Some service ->
     utils.IsPortAvailable env (utils.LocalPort service) = true) ->
  (forall n1 n2 s1 s2, services !! n1 = Some s1 -> services !! n2 = Some s2 ->
     utils.LocalPort s1 = utils.LocalPort s2 -> n1 = n2) ->
  (forall name, name ∈ order2 -> name ∈ order1) ->
  exists ports,
    utils.ResolvePortConflicts env order1 order2 services = inl ports /\
    (forall name, name ∈ order1 ->
       ports !! name = utils.LocalPort <$> services !! name) /\
    (forall name, name ∉ order1 -> ports !! name = None).
Proof.
  intros Havail Hinj Hsub.
  assert (Hgen : forall (order seen : list string) (acc : gmap string Z * gmap Z bool),
    ((forall name, name ∈ seen ->
        acc.1 !! name = utils.LocalPort <$> services !! name) /\
     (forall name, name ∉ seen -> acc.1 !! name = None) /\
     (forall p, utils.used acc.2 p = true ->
        exists name s, name ∈ seen /\ services !! name = Some s
                       /\ utils.LocalPort s = p)) ->
    let r := foldl (utils.assign_available env services) acc order in
    (forall name, name ∈ seen ++ order ->
       r.1 !! name = utils.LocalPort <$> services !! name) /\
    (forall name, name ∉ seen ++ order -> r.1 !! name = None)).
  { induction order as [|n order IH]; intros seen [pa u] (Hin & Hout & Hused).
    - simpl. rewrite app_nil_r. by split.
    - simpl. specialize (IH (seen ++ [n])).
      rewrite <- (assoc_L (++) seen [n] order) in IH. apply IH. clear IH.
      simpl in *. unfold utils.assign_available.
      assert (Hcur : pa !! n = None
                     \/ pa !! n = utils.LocalPort <$> services !! n).
      { destruct (decide (n ∈ seen)); [right; by apply Hin|left; by apply Hout]. }
      destruct (services !! n) as [service|] eqn:Hservice.
      + rewrite (Havail _ _ Hservice). simpl.
        destruct (utils.used u (utils.LocalPort service)) eqn:Hfree; simpl.
        * destruct (Hused _ Hfree) as (n' & s' & Hn' & Hs' & Hport).
          assert (n' = n) as -> by eauto.
          split; [|split; [|intros p Hp; destruct (Hused _ Hp) as (m & sm & ? & ? & ?);
                              exists m, sm; set_solver]].
          -- intros name [Hname|Hname%list_elem_of_singleton]%elem_of_app;
               [by apply Hin|subst name; by apply Hin].
          -- intros name Hname. apply Hout. set_solver.
        * split; [|split].
          -- intros name [Hname|Hname%list_elem_of_singleton]%elem_of_app.
             ++ destruct (decide (name = n)) as [->|Hne].
                ** by rewrite lookup_insert_eq, Hservice.
                ** rewrite lookup_insert_ne by done. by apply Hin.
             ++ subst name. by rewrite lookup_insert_eq, Hservice.
          -- intros name Hname. rewrite lookup_insert_ne by set_solver.
             apply Hout. set_solver.
          -- intros p. unfold utils.used.
             destruct (decide (p = utils.LocalPort service)) as [->|Hp].
             ++ intros _. exists n, service. set_solver.
             ++ rewrite lookup_insert_ne by done. intros Hu.
                destruct (Hused _ Hu) as (m & sm & ? & ? & ?).
                exists m, sm. set_solver.
      + split; [|split].
        * intros name [Hname|Hname%list_elem_of_singleton]%elem_of_app;
            [by apply Hin|]. subst name. simpl. rewrite Hservice.
          by destruct Hcur.
        * intros name Hname. apply Hout. set_solver.
        * intros p Hp. destruct (Hused _ Hp) as (m & sm & ? & ? & ?).
          exists m, sm. set_solver. }
  unfold utils.ResolvePortConflicts.
  specialize (Hgen order1 [] (∅, ∅)). simpl in Hgen.
  destruct (foldl _ _ order1) as [pa u]. simpl in Hgen.
  destruct Hgen as (Hin & Hout).
  { split; [intros name Hname; by apply elem_of_nil in Hname|].
    split; [intros name _; apply lookup_empty|].
    intros p. unfold utils.used. by rewrite lookup_empty. }
  exists pa. split; [|by split].
  apply resolve_conflicts_all_assigned. intros name Hname [service Hservice].
  rewrite Hin by auto. rewrite Hservice. by eexists.
Qed.

Lemma ResolvePortConflicts_conflict_free_witness :
  exists ports,
    utils.ResolvePortConflicts (Fixtures.host [] 4242) ["api"; "web"]
      ["web"; "api"] Fixtures.neighbours = inl ports /\
    ports !! "api" = Some 9000 /\ ports !! "web" = Some 9001.
Proof.
  assert (Hcases : forall n s, Fixtures.neighbours !! n = Some s ->
            (n = "api" /\ utils.LocalPort s = 9000)
            \/ (n = "web" /\ utils.LocalPort s = 9001)).
  { intros n s. unfold Fixtures.neighbours. rewrite lookup_insert.
    case_decide; [intros [= <-]; by left|].
    rewrite lookup_insert. case_decide; [intros [= <-]; by right|].
    by rewrite lookup_empty. }
  destruct (ResolvePortConflicts_conflict_free (Fixtures.host [] 4242)
              ["api"; "web"] ["web"; "api"] Fixtures.neighbours)
    as (ports & Hres & Hin & _).
  - intros name service Hname.
    destruct (Hcases _ _ Hname) as [[_ ->]|[_ ->]]; reflexivity.
  - intros n1 n2 s1 s2 H1 H2 Hport.
    destruct (Hcases _ _ H1) as [[-> E1]|[-> E1]],
             (Hcases _ _ H2) as [[-> E2]|[-> E2]]; congruence.
  - set_solver.
  - exists ports. split; [exact Hres|].
    split; rewrite Hin by set_solver; reflexivity.
Defined.

(** *** utils: processes *)

(** X7. [KillProcess] concerns no process but the one it was given: every
    signal and every taskkill in its trace names that pid. It sends
    SIGKILL only after a SIGTERM, and when it returns nil the pid was
    positive and a request to terminate was sent. *)
Theorem KillProcess_targets_only_pid (env : Env) (pid : Z) :
  let r := utils.KillProcess env pid in
  Forall (Spec.about_pid pid) r.2 /\
  (EvSignal pid SIGKILL ∈ r.2 ->
   r.2 = [EvSignal pid SIGTERM; EvSignal pid SIGKILL]
   /\ signal env pid SIGTERM <> None) /\
  (r.1 = None -> 0 < pid /\ exists e, e ∈ r.2 /\ is_kill e = true).
Proof.
  unfold utils.KillProcess. cbv zeta.
  case_bool_decide as Hpid; simpl.
  { split; [constructor|]. split; [by intros ?%elem_of_nil|done]. }
  destruct (findProcess env pid); simpl.
  { split; [constructor|]. split; [by intros ?%elem_of_nil|done]. }
  destruct (GOOS env); simpl.
  - destruct (signal env pid SIGTERM) eqn:Hterm; simpl.
    + split; [by repeat constructor|]. split; [done|].
      intros _. split; [lia|]. exists (EvSignal pid SIGTERM). split; [set_solver|done].
    + split; [by repeat constructor|]. split.
      * intros Hin. apply list_elem_of_singleton in Hin. done.
      * intros _. split; [lia|]. exists (EvSignal pid SIGTERM).
        split; [set_solver|done].
  - split; [by repeat constructor|]. split.
    + intros Hin. apply list_elem_of_singleton in Hin. done.
    + intros _. split; [lia|]. exists (EvTaskkill pid). split; [set_solver|done].
Qed.

(** X8. [GetProcessInfo] answers for a pid that is zero or negative with
    the error "process <pid> is not running", without probing; whenever
    it succeeds, the process was found running and the information is
    about the pid asked for. *)
Theorem GetProcessInfo_only_running (env : Env) (pid : Z) :
  (pid <= 0 ->
   utils.GetProcessInfo env pid
   = (inr ("process " +:+ pretty pid +:+ " is not running"), [])) /\
  (forall info, (utils.GetProcessInfo env pid).1 = inl info ->
     (utils.IsProcessRunning env pid).1 = true /\ 0 < pid /\ utils.PID info = pid) /\
  (utils.GetProcessInfo env pid).2 = (utils.IsProcessRunning env pid).2.
Proof.
  unfold utils.GetProcessInfo. split; [|split].
  - intros Hpid. unfold utils.IsProcessRunning. by rewrite bool_decide_true.
  - intros info. unfold utils.IsProcessRunning.
    case_bool_decide as Hpid; simpl; [done|].
    destruct (findProcess env pid); simpl; [done|].
    destruct (GOOS env); simpl.
    + case_bool_decide; simpl; [|done]. intros [= <-]. repeat split; [lia].
    + unfold utils.isProcessRunningWindows.
      destruct (tasklist env pid); simpl; [|done].
      case_bool_decide; simpl; [|done]. intros [= <-]. repeat split; [lia].
  - by destruct (utils.IsProcessRunning env pid) as [[] tr].
Qed.

Lemma GetProcessInfo_only_running_witness :
  utils.GetProcessInfo (Fixtures.host [] 4242) 0
  = (inr "process 0 is not running", []).
Proof.
  destruct (GetProcessInfo_only_running (Fixtures.host [] 4242) 0) as (Hneg & _).
  rewrite Hneg by lia. reflexivity.
Defined.

(** *** ServiceManager: what the methods keep *)

(** The two ways in which [Start] ends, for a manager with the
    constructor's ladder: the child runs, or an error is returned and the
    status is Cooldown or Failed with the old command handle. *)
Lemma Start_cases (env : Env) (now0 now1 : Time) (sm : ServiceManager.t) :
  ServiceManager.backoffSeconds sm = ServiceManager.ladder ->
  exists r sm' tr,
    ServiceManager.Start env now0 now1 sm = (Returned r, sm', tr) /\
    ServiceManager.name sm' = ServiceManager.name sm /\
    ServiceManager.config sm' = ServiceManager.config sm /\
    ServiceManager.backoffSeconds sm' = ServiceManager.ladder /\
    ((r = None /\ exists port pid, sm' = Spec.started port pid now1 sm) \/
     ((exists err, r = Some err) /\
      ServiceManager.cmd sm' = ServiceManager.cmd sm /\
      ServiceStatus.PID (ServiceManager.status sm')
        = ServiceStatus.PID (ServiceManager.status sm) /\
      (ServiceStatus.Status (ServiceManager.status sm') = "Cooldown"
       \/ ServiceStatus.Status (ServiceManager.status sm') = "Failed"))).
Proof.
  intros Hladder.
  destruct sm as [n c [sn ss sl sp st rc le ic cu'] cm fc cu bs].
  simpl in Hladder. subst bs.
  unfold ServiceManager.Start, ServiceManager.resolvePort,
    utils.StartKubectlPortForward.
  op_step. cbn -[ServiceManager.handleFailure].
  destruct (ServiceManager.isInCooldown now0 _).
  { do 3 eexists. split; [reflexivity|]. do 3 (split; [reflexivity|]).
    right. split; [by eexists|]. simpl. auto. }
  destruct (utils.IsPortAvailable env _); cbn -[ServiceManager.handleFailure];
    [|destruct (utils.FindAvailablePort env _) as [newPort|err];
      cbn -[ServiceManager.handleFailure]].
  1,2: destruct (kubectlStart env _ _ _ _) as [pid|err'];
         cbn -[ServiceManager.handleFailure].
  1,3: do 3 eexists; (split; [reflexivity|]); do 3 (split; [reflexivity|]);
         left; (split; [done|]); by do 2 eexists.
  1,2: rewrite handleFailure_eq by reflexivity; cbv zeta;
         case_bool_decide; cbn;
         do 3 eexists; (split; [reflexivity|]); do 3 (split; [reflexivity|]);
         right; (split; [by eexists|]); simpl; auto.
  do 3 eexists. split; [reflexivity|]. do 3 (split; [reflexivity|]).
  right. split; [by eexists|]. simpl. auto.
Qed.

Lemma GetStatus_cases (env : Env) (sm : ServiceManager.t) :
  exists sm' tr,
    ServiceManager.GetStatus env sm = (Returned (ServiceManager.status sm'), sm', tr) /\
    (sm' = sm \/
     (ServiceStatus.Status (ServiceManager.status sm) = "Running" /\
      sm' = Spec.demoted sm)).
Proof.
  unfold ServiceManager.GetStatus. op_step.
  destruct (String.eqb _ "Running") eqn:Hstatus.
  - apply String.eqb_eq in Hstatus.
    destruct (IsHealthy_state env sm) as ([] & probe & Hh); op_step; rewrite Hh;
      simpl.
    + exists sm, ((probe ++ []) ++ []). split; [reflexivity|]. by left.
    + exists (Spec.demoted sm), ((probe ++ []) ++ []). split; [reflexivity|].
      by right.
  - simpl. exists sm, []. split; [reflexivity|]. by left.
Qed.

Lemma stopped_consistent (sm : ServiceManager.t) :
  ServiceManager.backoffSeconds sm = ServiceManager.ladder ->
  Spec.consistent (Spec.stopped sm).
Proof.
  intros Hladder. destruct sm as [n c [] cm fc cu bs]. simpl in *.
  split; [done|]. split; [by left|done].
Qed.

Lemma Start_consistent (env : Env) (now0 now1 : Time) (sm : ServiceManager.t) :
  Spec.consistent sm ->
  Spec.consistent (state (ServiceManager.Start env now0 now1 sm)).
Proof.
  intros (Hladder & Hpid & Hrun).
  destruct (Start_cases env now0 now1 sm Hladder)
    as (r & sm' & tr & -> & _ & _ & Hladder' & Hcases).
  unfold Spec.consistent, state. simpl. split; [done|].
  destruct Hcases as [(_ & port & pid & ->)|(_ & Hcmd & Hpid' & Hstatus)].
  - split; [by right|done].
  - rewrite Hcmd, Hpid'. split; [done|].
    intros Hrunning. destruct Hstatus as [Hs|Hs]; rewrite Hs in Hrunning; done.
Qed.

(** X9. Every state that [Start], [Stop], [Restart] and [GetStatus] can
    produce from a new service manager is consistent: the backoff ladder
    is still 5, 10, 20, 40, 60; the recorded PID is the pid of the
    command handle, or 0 when there is no handle; and a status of Running
    always comes with a command handle. *)
Theorem reachable_states_consistent (sm : ServiceManager.t) :
  Spec.reachable sm -> Spec.consistent sm.
Proof.
  induction 1 as [name service|env now0 now1 sm _ IH|env sm _ IH
                  |env now0 now1 sm _ IH|env sm _ IH].
  - split; [done|]. split; [by left|done].
  - by apply Start_consistent.
  - rewrite Stop_eq. apply stopped_consistent, IH.
  - rewrite Restart_eq.
    pose proof (Start_consistent env now0 now1 (Spec.counted (Spec.stopped sm)))
      as Hstart.
    destruct (ServiceManager.Start env now0 now1 _) as [[r sm'] tr].
    apply Hstart. destruct IH as (Hladder & _).
    destruct sm as [n c [] cm fc cu bs]. simpl in *.
    split; [done|]. split; [by left|done].
  - destruct (GetStatus_cases env sm) as (sm' & tr & -> & [->|[Hrun ->]]);
      [done|]. unfold state. simpl.
    destruct IH as (Hladder & Hpid & _).
    destruct sm as [n c [] cm fc cu bs]. simpl in *. by repeat split.
Qed.

Lemma reachable_states_consistent_witness :
  Spec.reachable Fixtures.failed_thrice /\ Spec.consistent Fixtures.failed_thrice.
Proof.
  assert (Hreach : Spec.reachable Fixtures.failed_thrice).
  { unfold Fixtures.failed_thrice, Fixtures.failed_once, Fixtures.fresh.
    do 3 apply Spec.reachable_Start. apply Spec.reachable_New. }
  split; [exact Hreach|]. exact (reachable_states_consistent _ Hreach).
Defined.

(** X10. On a service manager with the constructor's ladder, [Start]
    and [Restart] never panic, and each returns nil exactly when the
    status it leaves is Running; otherwise the status is Cooldown or
    Failed. Neither changes the name or the configuration. *)
Theorem Start_nil_iff_Running (env : Env) (now0 now1 : Time) (sm : ServiceManager.t) :
  ServiceManager.backoffSeconds sm = ServiceManager.ladder ->
  (exists r, outcome (ServiceManager.Start env now0 now1 sm) = Returned r /\
     (r = None <->
      ServiceStatus.Status (ServiceManager.status
        (state (ServiceManager.Start env now0 now1 sm))) = "Running")) /\
  (exists r, outcome (ServiceManager.Restart env now0 now1 sm) = Returned r /\
     (r = None <->
      ServiceStatus.Status (ServiceManager.status
        (state (ServiceManager.Restart env now0 now1 sm))) = "Running")) /\
  ServiceManager.name (state (ServiceManager.Start env now0 now1 sm))
    = ServiceManager.name sm /\
  ServiceManager.config (state (ServiceManager.Start env now0 now1 sm))
    = ServiceManager.config sm.
Proof.
  assert (Hgen : forall sm0, ServiceManager.backoffSeconds sm0 = ServiceManager.ladder ->
    exists r, outcome (ServiceManager.Start env now0 now1 sm0) = Returned r /\
     (r = None <->
      ServiceStatus.Status (ServiceManager.status
        (state (ServiceManager.Start env now0 now1 sm0))) = "Running")).
  { intros sm0 Hladder.
    destruct (Start_cases env now0 now1 sm0 Hladder)
      as (r & sm' & tr & -> & _ & _ & _ & Hcases).
    exists r. split; [done|]. unfold state. simpl.
    destruct Hcases as [(-> & port & pid & ->)|([err ->] & _ & _ & [Hs|Hs])].
    - done.
    - rewrite Hs. done.
    - rewrite Hs. done. }
  intros Hladder. split; [by apply Hgen|]. split.
  - rewrite Restart_eq.
    destruct (Hgen (Spec.counted (Spec.stopped sm))) as (r & Hout & Hiff);
      [by destruct sm as [n c [] cm fc cu bs]|].
    destruct (ServiceManager.Start env now0 now1 _) as [[o sm'] tr].
    by exists r.
  - destruct (Start_cases env now0 now1 sm Hladder)
      as (r & sm' & tr & -> & Hname & Hconfig & _). by split.
Qed.

Lemma Start_nil_iff_Running_witness :
  outcome (ServiceManager.Start (Fixtures.host_without_kubectl []) 100 101
             Fixtures.fresh)
  = Returned (Some
      "failed to start port-forward for api: failed to start kubectl port-forward: exec: kubectl: executable file not found") /\
  ServiceStatus.Status (ServiceManager.status
    (state (ServiceManager.Start (Fixtures.host_without_kubectl []) 100 101
              Fixtures.fresh))) <> "Running".
Proof.
  destruct (Start_nil_iff_Running (Fixtures.host_without_kubectl []) 100 101
              Fixtures.fresh) as ((r & Hout & Hiff) & _); [reflexivity|].
  split; [vm_compute; reflexivity|].
  intros Hrun. apply Hiff in Hrun. subst r. vm_compute in Hout. discriminate.
Defined.

(** X11. [Stop] is idempotent: a second [Stop], on any host, returns nil,
    leaves the state that the first one left, and does nothing but write
    its log line; in particular it sends no signal. *)
Theorem ServiceManager_Stop_idempotent (env env' : Env) (sm : ServiceManager.t) :
  ServiceManager.Stop env' (state (ServiceManager.Stop env sm)) =
  (Returned None, state (ServiceManager.Stop env sm),
   [EvLog LevelInfo "Stopped port-forward for %s"]).
Proof.
  rewrite Stop_eq. unfold state. simpl. rewrite Stop_eq.
  by destruct sm as [n c [] cm fc cu bs].
Qed.

(** X12. Only [Restart] counts restarts: [Start], [Stop] and [GetStatus]
    leave [RestartCount] as it was, whatever they return, and [Restart]
    applies exactly one [++] to it. *)
Theorem RestartCount_changes_only_in_Restart (env : Env) (now0 now1 : Time)
    (sm : ServiceManager.t) :
  let count sm := ServiceStatus.RestartCount (ServiceManager.status sm) in
  count (state (ServiceManager.Start env now0 now1 sm)) = count sm /\
  count (state (ServiceManager.Stop env sm)) = count sm /\
  count (state (ServiceManager.GetStatus env sm)) = count sm /\
  count (state (ServiceManager.Restart env now0 now1 sm)) = GoInt.incr (count sm).
Proof.
  cbv zeta.
  assert (Hstart : forall sm0,
    ServiceStatus.RestartCount (ServiceManager.status
      (state (ServiceManager.Start env now0 now1 sm0)))
    = ServiceStatus.RestartCount (ServiceManager.status sm0)).
  { intros sm0.
    assert (Heta : ServiceManager.set_status (ServiceStatus.set_RestartCount
                     (ServiceStatus.RestartCount (ServiceManager.status sm0))) sm0
                   = sm0) by (by destruct sm0 as [n c [] cm fc cu bs]).
    rewrite <- Heta at 1. rewrite Start_RestartCount.
    by destruct (ServiceManager.Start env now0 now1 sm0) as [[r sm'] tr]. }
  split; [apply Hstart|]. split; [|split].
  - rewrite Stop_eq. by destruct sm as [n c [] cm fc cu bs].
  - destruct (GetStatus_cases env sm) as (sm' & tr & -> & [->|[_ ->]]); [done|].
    by destruct sm as [n c [] cm fc cu bs].
  - rewrite Restart_eq.
    specialize (Hstart (Spec.counted (Spec.stopped sm))).
    destruct (ServiceManager.Start env now0 now1 _) as [[r sm'] tr].
    unfold state in *. simpl in *. rewrite Hstart.
    by destruct sm as [n c [] cm fc cu bs].
Qed.

(** *** ServiceManager: port arbitration and failed starts *)

(** X13. [resolvePort] never changes the service manager. When it
    returns a port, that port is available; it is the configured port,
    with nothing logged, exactly when the configured port is available,
    and otherwise it lies strictly above the configured port (for a
    configured port below the largest int) and the reassignment is logged
    as a warning. When it returns an error, neither the configured port
    nor any port above it up to 65535 is available. *)
Theorem resolvePort_available (env : Env) (sm : ServiceManager.t) :
  let configured := Service.LocalPort (ServiceManager.config sm) in
  state (ServiceManager.resolvePort env sm) = sm /\
  (forall port, outcome (ServiceManager.resolvePort env sm) = Returned (inl port) ->
     utils.IsPortAvailable env port = true /\
     (utils.IsPortAvailable env configured = true ->
      port = configured /\ trace (ServiceManager.resolvePort env sm) = []) /\
     (utils.IsPortAvailable env configured = false ->
      trace (ServiceManager.resolvePort env sm)
        = [EvLog LevelWarn "Port %d is in use for %s, using port %d instead"] /\
      (GoInt.min_int <= configured < GoInt.max_int -> configured < port <= 65535))) /\
  (forall err, outcome (ServiceManager.resolvePort env sm) = Returned (inr err) ->
     trace (ServiceManager.resolvePort env sm) = [] /\
     utils.IsPortAvailable env configured = false /\
     forall q, GoInt.add configured 1 <= q <= 65535 ->
       utils.IsPortAvailable env q = false).
Proof.
  cbv zeta. unfold ServiceManager.resolvePort. op_step.
  destruct (utils.IsPortAvailable env (Service.LocalPort _)) eqn:Havail.
  - unfold outcome, state, trace. simpl. split; [done|]. split.
    + intros port [= <-]. by repeat split.
    + by intros err [=].
  - destruct (utils.FindAvailablePort env _) as [newPort|err] eqn:Hfind;
      unfold outcome, state, trace; simpl.
    + split; [done|]. split; [|by intros err [=]].
      intros port [= <-].
      apply FindAvailablePort_inl in Hfind as (Hrange & Hp & _).
      split; [done|]. split; [done|]. intros _. split; [done|].
      intros Hconf. unfold GoInt.add in Hrange.
      rewrite wrap_in_range in Hrange; [lia|].
      unfold GoInt.in_range. lia.
    + split; [done|]. split; [by intros port [=]|].
      intros err' [= <-]. split; [done|]. split; [done|].
      intros q Hq.
      assert (Hnone : utils.FindAvailablePort_from env
                (Z.to_nat (65536 - GoInt.add (Service.LocalPort
                   (ServiceManager.config sm)) 1))
                (GoInt.add (Service.LocalPort (ServiceManager.config sm)) 1) = None).
      { unfold utils.FindAvailablePort in Hfind.
        by destruct (utils.FindAvailablePort_from env _ _). }
      apply (proj1 (FindAvailablePort_from_None _ _ _) Hnone). lia.
Qed.

Lemma resolvePort_available_witness :
  outcome (ServiceManager.resolvePort (Fixtures.host [9000; 9001] 4242) Fixtures.fresh)
    = Returned (inl 9002) /\
  utils.IsPortAvailable (Fixtures.host [9000; 9001] 4242) 9002 = true.
Proof.
  destruct (resolvePort_available (Fixtures.host [9000; 9001] 4242) Fixtures.fresh)
    as (_ & Hport & _).
  assert (Hout : outcome (ServiceManager.resolvePort
                   (Fixtures.host [9000; 9001] 4242) Fixtures.fresh)
                 = Returned (inl 9002)) by (vm_compute; reflexivity).
  split; [exact Hout|]. by destruct (Hport 9002 Hout).
Defined.

(** X14. When no port can be found, [Start] spawns nothing: outside
    cooldown, if the configured port and every port above it are taken,
    [Start] returns the error "port resolution failed for <name>: ...",
    marks the status Failed with the resolver's message as the last
    error, leaves the trace empty, and leaves the command handle, the
    failure count and the cooldown as they were. *)
Theorem Start_without_free_port (env : Env) (now0 now1 : Time)
    (sm : ServiceManager.t) (err : error) :
  ServiceManager.isInCooldown now0 sm = false ->
  outcome (ServiceManager.resolvePort env sm) = Returned (inr err) ->
  ServiceManager.Start env now0 now1 sm =
  (Returned (Some ("port resolution failed for " +:+ ServiceManager.name sm
                   +:+ ": " +:+ err)),
   ServiceManager.set_status (ServiceStatus.set_LastError err)
     (ServiceManager.set_status (ServiceStatus.set_Status "Failed") sm),
   []) /\
  ServiceManager.failureCount (state (ServiceManager.Start env now0 now1 sm))
    = ServiceManager.failureCount sm /\
  ServiceManager.cooldownUntil (state (ServiceManager.Start env now0 now1 sm))
    = ServiceManager.cooldownUntil sm /\
  ServiceManager.cmd (state (ServiceManager.Start env now0 now1 sm))
    = ServiceManager.cmd sm.
Proof.
  intros Hcool Hport.
  assert (Hstart : ServiceManager.Start env now0 now1 sm =
    (Returned (Some ("port resolution failed for " +:+ ServiceManager.name sm
                     +:+ ": " +:+ err)),
     ServiceManager.set_status (ServiceStatus.set_LastError err)
       (ServiceManager.set_status (ServiceStatus.set_Status "Failed") sm),
     [])).
  { unfold ServiceManager.Start. op_step. rewrite Hcool.
    unfold ServiceManager.resolvePort in *. revert Hport. op_step.
    destruct (utils.IsPortAvailable env _); [by intros [=]|].
    destruct (utils.FindAvailablePort env _); [by intros [=]|].
    intros [= ->]. reflexivity. }
  rewrite Hstart. split; [done|]. by destruct sm.
Qed.

Lemma Start_without_free_port_witness :
  ServiceManager.isInCooldown 100 Fixtures.fresh = false /\
  outcome (ServiceManager.Start Fixtures.crowded_host 100 101
             Fixtures.fresh)
  = Returned (Some
      "port resolution failed for api: no available ports found starting from 9001").
Proof.
  split; [reflexivity|].
  destruct (Start_without_free_port Fixtures.crowded_host 100 101
              Fixtures.fresh "no available ports found starting from 9001")
    as (Hstart & _); [reflexivity|vm_compute; reflexivity|].
  rewrite Hstart. reflexivity.
Defined.

Lemma Start_spawn_failure (env : Env) (now0 now1 : Time) (sm : ServiceManager.t)
    (port : Z) (err : error) :
  ServiceManager.backoffSeconds sm = ServiceManager.ladder ->
  ServiceManager.isInCooldown now0 sm = false ->
  outcome (ServiceManager.resolvePort env sm) = Returned (inl port) ->
  kubectlStart env (Service.Namespace (ServiceManager.config sm))
    (Service.Target (ServiceManager.config sm)) port
    (Service.TargetPort (ServiceManager.config sm)) = inr err ->
  exists tr,
    ServiceManager.Start env now0 now1 sm =
    (Returned (Some ("failed to start port-forward for " +:+ ServiceManager.name sm
                     +:+ ": failed to start kubectl port-forward: " +:+ err)),
     state (ServiceManager.handleFailure now1
       (ServiceManager.set_status
          (ServiceStatus.set_LastError ("failed to start kubectl port-forward: " +:+ err))
          (ServiceManager.set_status (ServiceStatus.set_Status "Failed")
             (ServiceManager.set_status (ServiceStatus.set_LocalPort port) sm)))),
     tr) /\
    filter is_spawn tr =
      [EvSpawn (Service.Namespace (ServiceManager.config sm))
         (Service.Target (ServiceManager.config sm)) port
         (Service.TargetPort (ServiceManager.config sm))].
Proof.
  intros Hladder Hcool Hport Hspawn.
  destruct (resolvePort_state env sm) as (r & tr0 & Hr).
  assert (Htr0 : filter is_spawn tr0 = []).
  { revert Hr. unfold ServiceManager.resolvePort. op_step.
    destruct (utils.IsPortAvailable env _); [by intros [= _ <-]|].
    destruct (utils.FindAvailablePort env _); by intros [= _ <-]. }
  rewrite Hr in Hport. unfold outcome in Hport. simpl in Hport.
  injection Hport as ->.
  unfold ServiceManager.Start. op_step. rewrite Hcool, Hr. op_step.
  unfold utils.StartKubectlPortForward. rewrite Hspawn. op_step.
  rewrite handleFailure_eq by (by destruct sm). cbv zeta.
  case_bool_decide; op_step; eexists; (split; [reflexivity|]);
    rewrite ?app_nil_r, !filter_app, Htr0; reflexivity.
Qed.

(** X15. A start that fails to launch kubectl and brings the failure
    count to 3 or more arms the cooldown: the status is Failed, the
    command handle is the old one, exactly one spawn was attempted, and
    the cooldown ends [ladder[min(f - 3, 4)]] seconds after the failure.
    Every later [Start] whose clock is before that instant is refused
    without touching the host. *)
Theorem failed_start_arms_cooldown (env env' : Env) (now0 now1 later0 later1 : Time)
    (sm : ServiceManager.t) (port : Z) (err : error) :
  ServiceManager.backoffSeconds sm = ServiceManager.ladder ->
  ServiceManager.isInCooldown now0 sm = false ->
  outcome (ServiceManager.resolvePort env sm) = Returned (inl port) ->
  kubectlStart env (Service.Namespace (ServiceManager.config sm))
    (Service.Target (ServiceManager.config sm)) port
    (Service.TargetPort (ServiceManager.config sm)) = inr err ->
  3 <= GoInt.incr (ServiceManager.failureCount sm) ->
  later0 < now1 + Spec.backoff_seconds (GoInt.incr (ServiceManager.failureCount sm))
                  * time.Second ->
  let failed := state (ServiceManager.Start env now0 now1 sm) in
  ServiceStatus.Status (ServiceManager.status failed) = "Failed" /\
  ServiceManager.cmd failed = ServiceManager.cmd sm /\
  ServiceManager.failureCount failed = GoInt.incr (ServiceManager.failureCount sm) /\
  ServiceManager.cooldownUntil failed
    = now1 + Spec.backoff_seconds (GoInt.incr (ServiceManager.failureCount sm))
             * time.Second /\
  length (filter is_spawn (trace (ServiceManager.Start env now0 now1 sm))) = 1%nat /\
  trace (ServiceManager.Start env' later0 later1 failed) = [] /\
  exists refusal,
    outcome (ServiceManager.Start env' later0 later1 failed) = Returned (Some refusal).
Proof.
  intros Hladder Hcool Hport Hspawn Hcount Hlater failed. subst failed.
  destruct (Start_spawn_failure env now0 now1 sm port err Hladder Hcool Hport Hspawn)
    as (tr & -> & Htr).
  rewrite handleFailure_eq by (by destruct sm).
  unfold state, trace. simpl.
  replace (ServiceManager.failureCount _) with (ServiceManager.failureCount sm)
    by (by destruct sm).
  rewrite bool_decide_false by lia. simpl.
  split; [by destruct sm|]. split; [by destruct sm|]. split; [by destruct sm|].
  split; [by destruct sm|]. split; [by rewrite Htr|].
  rewrite Start_in_cooldown by (destruct sm; simpl in *; unfold time.Second in *; lia).
  split; [done|]. by eexists.
Qed.

Lemma failed_start_arms_cooldown_witness :
  let twice := state (ServiceManager.Start (Fixtures.host_without_kubectl []) 200 201
                        Fixtures.failed_once) in
  let thrice := state (ServiceManager.Start (Fixtures.host_without_kubectl []) 300 301
                         twice) in
  ServiceManager.failureCount twice = 2 /\
  ServiceManager.cooldownUntil thrice = 301 + 5 * time.Second /\
  trace (ServiceManager.Start (Fixtures.host [] 4242) 302 303 thrice) = [].
Proof.
  cbv zeta.
  destruct (failed_start_arms_cooldown (Fixtures.host_without_kubectl [])
              (Fixtures.host [] 4242) 300 301 302 303
              (state (ServiceManager.Start (Fixtures.host_without_kubectl []) 200 201
                        Fixtures.failed_once))
              9000 "exec: kubectl: executable file not found")
    as (_ & _ & _ & Hcool & _ & Htrace & _);
    [reflexivity | reflexivity | vm_compute; reflexivity | reflexivity
     | vm_compute; discriminate | vm_compute; reflexivity |].
  split; [vm_compute; reflexivity|]. split; [exact Hcool|exact Htrace].
Defined.

(** *** ServiceManager: status reads *)

(** X16. [GetStatus] only probes a service whose status is Running. For
    any other status (Starting, Stopped, Failed, Cooldown) it returns the
    stored status, leaves the service manager as it is and touches
    nothing on the host; so a status of Cooldown or Failed is never
    changed by reading it, however late the clock. A Running service that
    passes the probe is left unchanged as well. *)
Theorem GetStatus_reads_without_effect (env : Env) (sm : ServiceManager.t) :
  (ServiceStatus.Status (ServiceManager.status sm) <> "Running" ->
   ServiceManager.GetStatus env sm = (Returned (ServiceManager.status sm), sm, [])) /\
  (outcome (ServiceManager.IsHealthy env sm) = Returned true ->
   outcome (ServiceManager.GetStatus env sm) = Returned (ServiceManager.status sm) /\
   state (ServiceManager.GetStatus env sm) = sm).
Proof.
  split.
  - intros Hstatus. unfold ServiceManager.GetStatus. op_step.
    apply String.eqb_neq in Hstatus. rewrite Hstatus. reflexivity.
  - intros Hhealthy.
    destruct (IsHealthy_state env sm) as (healthy & probe & Hh).
    rewrite Hh in Hhealthy. unfold outcome in Hhealthy. simpl in Hhealthy.
    injection Hhealthy as ->.
    unfold ServiceManager.GetStatus. op_step.
    destruct (String.eqb _ "Running"); [|done].
    op_step. rewrite Hh. done.
Qed.

Lemma GetStatus_reads_without_effect_witness :
  let refused := state (ServiceManager.Start (Fixtures.host [] 4242) 302 303
                          Fixtures.failed_thrice) in
  ServiceStatus.Status (ServiceManager.status refused) = "Cooldown" /\
  ServiceManager.GetStatus (Fixtures.host [] 4242) refused
  = (Returned (ServiceManager.status refused), refused, []).
Proof.
  cbv zeta. split; [vm_compute; reflexivity|].
  destruct (GetStatus_reads_without_effect (Fixtures.host [] 4242)
              (state (ServiceManager.Start (Fixtures.host [] 4242) 302 303
                        Fixtures.failed_thrice))) as (Hread & _).
  apply Hread. vm_compute. discriminate.
Defined.

(** *** Manager: reading the context *)

Lemma string_app_empty_r (s : string) : s +:+ "" = s.
Proof.
  induction s as [|c s IH]; [done|].
  change (String c (s +:+ "") = String c s). by rewrite IH.
Qed.

Lemma rev_app_app (s1 s2 t : string) :
  String.rev_app (s1 +:+ s2) t = String.rev_app s2 (String.rev_app s1 t).
Proof. revert t. induction s1 as [|c s1 IH]; intros t; [done|apply IH]. Qed.

Lemma rev_app_rev_app (s t u : string) :
  String.rev_app (String.rev_app s t) u = String.rev_app t (s +:+ u).
Proof.
  revert t u. induction s as [|c s IH]; intros t u; [done|].
  change (String.rev_app (String.rev_app s (String c t)) u
          = String.rev_app t (String c (s +:+ u))).
  by rewrite IH.
Qed.

Lemma string_rev_involutive (s : string) : String.rev (String.rev s) = s.
Proof.
  unfold String.rev. rewrite rev_app_rev_app. apply string_app_empty_r.
Qed.

Lemma string_rev_snoc (s : string) (c : Ascii.ascii) :
  String.rev (s +:+ String c "") = String c (String.rev s).
Proof. unfold String.rev. rewrite rev_app_app. reflexivity. Qed.

Lemma string_rev_cons (s : string) (c : Ascii.ascii) :
  String.rev (String c s) = String.rev s +:+ String c "".
Proof.
  rewrite <- (string_rev_involutive (String.rev s +:+ String c "")).
  by rewrite string_rev_snoc, string_rev_involutive.
Qed.

(** X17. [getCurrentKubernetesContext] strips exactly one trailing
    newline from the output of kubectl and nothing else: output that is a
    context name followed by a newline yields the name (even when the
    name itself ends in a newline), and output that does not end in a
    newline is returned as it is. *)
Theorem context_loses_one_trailing_newline (env : Env) (output : string) :
  kubectlCurrentContext env = inl output ->
  (forall context, output = context +:+ String Manager.newline "" ->
     Manager.getCurrentKubernetesContext env = inl context) /\
  ((forall context, output <> context +:+ String Manager.newline "") ->
   Manager.getCurrentKubernetesContext env = inl output).
Proof.
  intros Hout. unfold Manager.getCurrentKubernetesContext. rewrite Hout.
  unfold Manager.trim_newline. split.
  - intros context ->. rewrite string_rev_snoc, Ascii.eqb_refl.
    by rewrite string_rev_involutive.
  - intros Hno. destruct (String.rev output) as [|c rest] eqn:Hrev; [done|].
    destruct (Ascii.eqb c Manager.newline) eqn:Hc; [|done].
    apply Ascii.eqb_eq in Hc. subst c. exfalso.
    apply (Hno (String.rev rest)).
    rewrite <- (string_rev_involutive output), Hrev.
    apply string_rev_cons.
Qed.

Lemma context_loses_one_trailing_newline_witness :
  kubectlCurrentContext (Fixtures.host_printing "staging")
  = inl ("staging" +:+ String Manager.newline "") /\
  Manager.getCurrentKubernetesContext (Fixtures.host_printing "staging")
  = inl "staging".
Proof.
  split; [reflexivity|].
  destruct (context_loses_one_trailing_newline
              (Fixtures.host_printing "staging")
              ("staging" +:+ String Manager.newline "") eq_refl)
    as (Hstrip & _).
  apply Hstrip. reflexivity.
Defined.

(** *** Maps and traces *)

Lemma alter_lookup_insert {A} (f : A -> A) (k : string) (x : A) (s : gmap string A) :
  s !! k = Some x -> <[k := f x]> s = alter f k s.
Proof.
  intros Hk. apply map_eq. intros i. destruct (decide (i = k)) as [->|Hne].
  - by rewrite lookup_insert_eq, lookup_alter_eq, Hk.
  - by rewrite lookup_insert_ne, lookup_alter_ne by done.
Qed.

Lemma alter_lookup_None {A} (f : A -> A) (k : string) (s : gmap string A) :
  s !! k = None -> alter f k s = s.
Proof.
  intros Hk. apply map_eq. intros i. destruct (decide (i = k)) as [->|Hne].
  - by rewrite lookup_alter_eq, Hk.
  - by rewrite lookup_alter_ne by done.
Qed.

(** A loop that alters the entry of every key it visits, each key once. *)
Lemma lookup_foldl_alter {A} (f : string -> A -> A) (order : list string)
    (s : gmap string A) (name : string) :
  NoDup order ->
  foldl (fun s k => alter (f k) k s) s order !! name
  = if decide (name ∈ order) then f name <$> s !! name else s !! name.
Proof.
  revert s. induction order as [|k order IH]; intros s Hnd; simpl; [done|].
  apply NoDup_cons in Hnd as [Hk Hnd]. rewrite IH by done.
  destruct (decide (name = k)) as [->|Hne].
  - rewrite decide_False by done.
    rewrite decide_True by (apply elem_of_cons; by left).
    by rewrite lookup_alter_eq.
  - rewrite lookup_alter_ne by done.
    destruct (decide (name ∈ order)) as [Hin|Hout].
    + by rewrite decide_True by (apply elem_of_cons; by right).
    + rewrite decide_False; [done|]. intros Hin.
      apply elem_of_cons in Hin as [?|?]; done.
Qed.


Lemma IsProcessRunning_probes (env : Env) (pid : Z) :
  Spec.only_probes (snd (utils.IsProcessRunning env pid)).
Proof.
  unfold Spec.only_probes, utils.IsProcessRunning, utils.isProcessRunningWindows.
  repeat (case_bool_decide || case_match); simpl;
    repeat constructor.
Qed.

Lemma GetStatus_probes (env : Env) (sm : ServiceManager.t) :
  Spec.only_probes (trace (ServiceManager.GetStatus env sm)).
Proof.
  unfold ServiceManager.GetStatus, ServiceManager.IsHealthy. op_step.
  destruct (String.eqb _ "Running"); [|constructor].
  destruct (ServiceManager.cmd sm) as [pid|]; [|constructor].
  pose proof (IsProcessRunning_probes env pid) as Hp.
  destruct (utils.IsProcessRunning env pid) as [[] tr]; simpl in *.
  - destruct (utils.CheckPortConnectivity env _); simpl; by rewrite !app_nil_r.
  - by rewrite !app_nil_r.
Qed.

(** *** Manager: the context check *)

Section ManagerFurther.
Context {H : Type} `{UIHandler H}.

(** X18. A change of the Kubernetes context is dispatched once. When the
    context read succeeds, [checkKubernetesContext] never panics and
    leaves the manager with the context just read and everything else as
    it was; if the context differs from the remembered one it logs the
    change and starts exactly one background [restartAllServices], and
    if it is the same it does nothing. A second check on the same host
    right after does nothing at all. *)
Theorem context_change_dispatched_once (env : Env) (m : Manager.t H)
    (newContext : string) :
  Manager.getCurrentKubernetesContext env = inl newContext ->
  let first := Manager.checkKubernetesContext env m in
  outcome first = Returned tt /\
  state first = Manager.set_kubernetesContext newContext m /\
  Manager.GetKubernetesContext (state first) = newContext /\
  trace first =
    (if String.eqb newContext (Manager.kubernetesContext m) then []
     else [EvLog LevelInfo
             "Kubernetes context changed from %s to %s, restarting all services";
           EvGo TaskRestartAllServices]) /\
  Manager.checkKubernetesContext env (state first) = (Returned tt, state first, []).
Proof.
  intros Hread. cbv zeta. unfold Manager.checkKubernetesContext. rewrite Hread.
  op_step. destruct (String.eqb newContext (Manager.kubernetesContext m)) eqn:Heq;
    simpl.
  - rewrite Heq. simpl. split; [done|].
    apply String.eqb_eq in Heq. subst newContext. split; [by destruct m|done].
  - rewrite String.eqb_refl. simpl. done.
Qed.

(** *** Manager: loops over the services *)

Lemma set_services_id (m : Manager.t H) :
  Manager.set_services (Manager.services m) m = m.
Proof. by destruct m. Qed.

(** A loop that applies [f] to the service manager of every key it
    visits, and always returns. *)
Lemma for_each_services (f : string -> ServiceManager.t -> ServiceManager.t)
    (P : ServiceManager.t -> Prop) (body : string -> Op (Manager.t H) unit) :
  (forall k sm, P sm -> P (f k sm)) ->
  (forall k m, (forall n sm, Manager.services m !! n = Some sm -> P sm) ->
     exists tr, body k m =
       (Returned tt,
        Manager.set_services (alter (f k) k (Manager.services m)) m, tr)) ->
  forall order m,
    (forall n sm, Manager.services m !! n = Some sm -> P sm) ->
    exists tr, for_each order body m =
      (Returned tt,
       Manager.set_services
         (foldl (fun s k => alter (f k) k s) (Manager.services m) order) m, tr).
Proof.
  intros HP Hbody order. induction order as [|k order IH]; intros m Hm; simpl.
  - exists []. by rewrite set_services_id.
  - op_step. destruct (Hbody k m Hm) as (t1 & ->).
    edestruct (IH (Manager.set_services (alter (f k) k (Manager.services m)) m))
      as (t2 & ->).
    { simpl. intros n sm. destruct (decide (n = k)) as [->|Hne].
      - rewrite lookup_alter_eq. destruct (Manager.services m !! k) as [sm0|] eqn:Hk;
          [|done].
        intros [= <-]. eapply HP, Hm, Hk.
      - rewrite lookup_alter_ne by done. apply Hm. }
    exists (t1 ++ t2). by destruct m.
Qed.

Lemma Restart_ladder (env : Env) (now0 now1 : Time) (sm : ServiceManager.t) :
  ServiceManager.backoffSeconds sm = ServiceManager.ladder ->
  exists r tr,
    ServiceManager.Restart env now0 now1 sm
    = (Returned r, state (ServiceManager.Restart env now0 now1 sm), tr) /\
    ServiceManager.backoffSeconds (state (ServiceManager.Restart env now0 now1 sm))
    = ServiceManager.ladder.
Proof.
  intros Hladder. rewrite Restart_eq.
  destruct (Start_cases env now0 now1 (Spec.counted (Spec.stopped sm)))
    as (r & sm' & tr & -> & _ & _ & Hl & _); [done|].
  unfold state. simpl. by do 2 eexists.
Qed.

Lemma restartAllServices_eq (env : Env) (order : list string)
    (clock : string -> Time * Time) (m : Manager.t H) :
  Spec.ladders (Manager.services m) ->
  exists tr,
    Manager.restartAllServices env order clock m =
    (Returned tt,
     Manager.set_services
       (foldl (fun s k =>
                 alter (fun sm => state (ServiceManager.Restart env
                                           (fst (clock k)) (snd (clock k)) sm)) k s)
              (Manager.services m) order) m, tr).
Proof.
  unfold Manager.restartAllServices.
  apply (for_each_services
           (fun k sm => state (ServiceManager.Restart env (fst (clock k))
                                 (snd (clock k)) sm))
           (fun sm => ServiceManager.backoffSeconds sm = ServiceManager.ladder)).
  - intros k sm Hsm.
    by destruct (Restart_ladder env (fst (clock k)) (snd (clock k)) sm Hsm)
      as (_ & _ & _ & ?).
  - clear m. intros k m Hm. cbv beta.
    destruct (clock k) as [now0 now1]. cbn [fst snd].
    set (f := fun sm => state (ServiceManager.Restart env now0 now1 sm)).
    op_step.
    destruct (Manager.services m !! k) as [sm|] eqn:Hk.
    + destruct (Restart_ladder env now0 now1 sm (Hm _ _ Hk))
        as (r & tr & Hr & _).
      unfold Manager.on_service. rewrite Hr.
      rewrite <- (alter_lookup_insert f _ _ _ Hk).
      destruct r; eexists; reflexivity.
    + rewrite alter_lookup_None by done. rewrite set_services_id. by eexists.
Qed.

(** X19. [restartAllServices] restarts every service it visits exactly
    once and independently of the others: it never panics and never
    stops early when a restart fails (the error is only logged); the
    service manager of each visited name ends in the state that its own
    [Restart] produces from the state it had before the loop; a name that
    is not visited keeps its service manager, and no name is added. *)
Theorem restartAllServices_restarts_each_once (env : Env) (order : list string)
    (clock : string -> Time * Time) (m : Manager.t H) :
  NoDup order ->
  Spec.ladders (Manager.services m) ->
  let r := Manager.restartAllServices env order clock m in
  outcome r = Returned tt /\
  (forall name sm, name ∈ order -> Manager.services m !! name = Some sm ->
     Manager.services (state r) !! name
     = Some (state (ServiceManager.Restart env (fst (clock name))
                      (snd (clock name)) sm))) /\
  (forall name, name ∉ order ->
     Manager.services (state r) !! name = Manager.services m !! name) /\
  (forall name, Manager.services m !! name = None ->
     Manager.services (state r) !! name = None).
Proof.
  intros Hnd Hl. cbv zeta.
  destruct (restartAllServices_eq env order clock m Hl) as (tr & ->).
  unfold outcome, state. simpl. split; [done|].
  split; [|split].
  - intros name sm Hin Hsm.
    rewrite (lookup_foldl_alter (fun k sm => state (ServiceManager.Restart env
               (fst (clock k)) (snd (clock k)) sm))) by done.
    rewrite decide_True by done. by rewrite Hsm.
  - intros name Hout.
    rewrite (lookup_foldl_alter (fun k sm => state (ServiceManager.Restart env
               (fst (clock k)) (snd (clock k)) sm))) by done.
    by rewrite decide_False by done.
  - intros name Hnone.
    rewrite (lookup_foldl_alter (fun k sm => state (ServiceManager.Restart env
               (fst (clock k)) (snd (clock k)) sm))) by done.
    rewrite Hnone. by destruct (decide _).
Qed.

Lemma stop_handler_services (get : Manager.t H -> Iface H)
    (set : Iface H -> Manager.t H -> Manager.t H) (order : list string)
    (format : string) (m : Manager.t H) :
  (forall v m, Manager.services (set v m) = Manager.services m) ->
  exists m' tr,
    Manager.stop_handler get set order format m = (Returned tt, m', tr) /\
    Manager.services m' = Manager.services m.
Proof.
  intros Hset. unfold Manager.stop_handler. op_step.
  destruct (Manager.usable (get m)); [|by exists m, []].
  match goal with
  | |- context [for_each ?o ?b ?s] =>
      assert (Hb : forall k s, exists s' tr,
                b k s = (Returned tt, s', tr)
                /\ Manager.services s' = Manager.services s);
      [|destruct (for_each_frame Manager.services b Hb o s) as (m' & tr & -> & F)]
  end.
  - clear m. intros k m.
    destruct (Manager.services m !! k); [|by exists m, []].
    destruct (get m) as [| |h0]; [by exists m, [] | by exists m, [] |].
    destruct (StopService k h0) as [[[e|] h'] tr];
      do 2 eexists; (split; [reflexivity|apply Hset]).
  - by exists m', tr.
Qed.

Lemma stop_services_eq (env : Env) (order : list string) (m : Manager.t H) :
  exists tr,
    Manager.stop_services env order m =
    (Returned tt,
     Manager.set_services
       (foldl (fun s k => alter Spec.stopped k s) (Manager.services m) order) m,
     tr).
Proof.
  unfold Manager.stop_services.
  apply (for_each_services (fun _ => Spec.stopped) (fun _ => True)); [done| |done].
  clear m. intros k m _. op_step.
  destruct (Manager.services m !! k) as [sm|] eqn:Hk.
  - unfold Manager.on_service. rewrite Stop_eq.
    rewrite <- (alter_lookup_insert Spec.stopped _ _ _ Hk). by eexists.
  - rewrite alter_lookup_None by done. rewrite set_services_id. by eexists.
Qed.

(** X20. [Manager.Stop] stops every service it visits, whether it then
    returns or panics on the status channel: the service manager of each
    visited name is left as its own [Stop] leaves it (status Stopped, PID
    0, no command handle); the UI handler loops change no service
    manager; a name that is not visited keeps its service manager, and
    no name is added or removed. *)
Theorem Manager_Stop_stops_every_service (env : Env)
    (order1 order2 order3 : list string) (m : Manager.t H) :
  NoDup order3 ->
  let after := Manager.services (state (Manager.Stop env order1 order2 order3 m)) in
  (forall name sm, name ∈ order3 -> Manager.services m !! name = Some sm ->
     after !! name = Some (Spec.stopped sm)) /\
  (forall name, name ∉ order3 -> after !! name = Manager.services m !! name) /\
  (forall name, Manager.services m !! name = None -> after !! name = None).
Proof.
  intros Hnd. cbv zeta.
  assert (Hafter :
    Manager.services (state (Manager.Stop env order1 order2 order3 m))
    = foldl (fun s k => alter Spec.stopped k s) (Manager.services m) order3).
  { unfold Manager.Stop. op_step.
    destruct (Manager.monitoringTicker m); op_step.
    all: match goal with
         | |- context [Manager.stop_handler Manager.grpcUIHandler _ _ _ ?m1] =>
             destruct (stop_handler_services Manager.grpcUIHandler
                         Manager.set_grpcUIHandler order1
                         "Failed to stop gRPC UI for %s: %v" m1)
               as (m2 & t2 & -> & F2); [done|]; op_step
         end.
    all: destruct (stop_handler_services Manager.swaggerUIHandler
                     Manager.set_swaggerUIHandler order2
                     "Failed to stop Swagger UI for %s: %v" m2)
           as (m3 & t3 & -> & F3); [done|]; op_step.
    all: destruct (stop_services_eq env order3 m3) as (t4 & ->).
    all: unfold Manager.on_statusChan, Chan.close; simpl.
    all: destruct (Chan.closed (Manager.statusChan m3)); simpl.
    all: simpl in *; congruence. }
  rewrite Hafter. split; [|split].
  - intros name sm Hin Hsm.
    rewrite (lookup_foldl_alter (fun _ => Spec.stopped)) by done.
    rewrite decide_True by done. by rewrite Hsm.
  - intros name Hout.
    rewrite (lookup_foldl_alter (fun _ => Spec.stopped)) by done.
    by rewrite decide_False by done.
  - intros name Hnone.
    rewrite (lookup_foldl_alter (fun _ => Spec.stopped)) by done.
    rewrite Hnone. by destruct (decide _).
Qed.

(** X21. [RestartService] concerns the named service only. For a name
    the manager does not know it returns the error "service <name> not
    found", changes nothing and has no effect on the host. For a known
    name its outcome and its trace are those of that service manager's
    [Restart], and every other service manager is left as it was. *)
Theorem RestartService_only_named (env : Env) (now0 now1 : Time) (name : string)
    (m : Manager.t H) :
  let r := Manager.RestartService env now0 now1 name m in
  (Manager.services m !! name = None ->
   r = (Returned (Some ("service " +:+ name +:+ " not found")), m, [])) /\
  (forall sm, Manager.services m !! name = Some sm ->
     outcome r = outcome (ServiceManager.Restart env now0 now1 sm) /\
     trace r = trace (ServiceManager.Restart env now0 now1 sm) /\
     Manager.services (state r) !! name
     = Some (state (ServiceManager.Restart env now0 now1 sm))) /\
  (forall other, other <> name ->
     Manager.services (state r) !! other = Manager.services m !! other).
Proof.
  cbv zeta.
  assert (Hcases :
    Manager.RestartService env now0 now1 name m =
    match Manager.services m !! name with
    | None => (Returned (Some ("service " +:+ name +:+ " not found")), m, [])
    | Some sm =>
        (outcome (ServiceManager.Restart env now0 now1 sm),
         Manager.set_services
           (<[name := state (ServiceManager.Restart env now0 now1 sm)]>
              (Manager.services m)) m,
         trace (ServiceManager.Restart env now0 now1 sm))
    end).
  { unfold Manager.RestartService, Manager.on_service. op_step.
    destruct (Manager.services m !! name) as [sm|]; [|done].
    by destruct (ServiceManager.Restart env now0 now1 sm) as [[r sm'] tr]. }
  rewrite Hcases. destruct (Manager.services m !! name) as [sm|] eqn:Hname.
  - unfold outcome at 1, trace at 1, state at 1 3. simpl.
    split; [done|]. split.
    + intros sm0 [= <-]. by rewrite lookup_insert_eq.
    + intros other Hne. by rewrite lookup_insert_ne.
  - split; [done|]. split; [done|]. done.
Qed.

(** *** Manager: reading the status *)

Lemma current_status_spec (env : Env) (order : list string) :
  forall (status : gmap string ServiceStatus.t) (m : Manager.t H),
    Spec.snapshot_of status (Manager.services m) ->
    exists status' m' tr,
      Manager.current_status env order status m = (Returned status', m', tr) /\
      Spec.only_probes tr /\
      Spec.snapshot_of status' (Manager.services m') /\
      (forall name, is_Some (status !! name) -> is_Some (status' !! name)) /\
      (forall name, name ∈ order -> is_Some (Manager.services m !! name) ->
         is_Some (status' !! name)) /\
      (forall name, is_Some (Manager.services m !! name) ->
         is_Some (Manager.services m' !! name)).
Proof.
  induction order as [|k order IH]; intros status m Hsnap; simpl.
  - exists status, m, []. split; [done|]. split; [constructor|].
    split; [done|]. split; [done|]. split; [|done].
    intros name Hin. by apply elem_of_nil in Hin.
  - op_step. destruct (Manager.services m !! k) as [sm|] eqn:Hk.
    + unfold Manager.on_service.
      pose proof (GetStatus_probes env sm) as Hprobe.
      destruct (GetStatus_cases env sm) as (sm' & t1 & Hget & _).
      rewrite Hget in *. unfold trace in Hprobe. simpl in Hprobe.
      edestruct (IH (<[k := ServiceManager.status sm']> status)
                   (Manager.set_services (<[k := sm']> (Manager.services m)) m))
        as (status' & m' & t2 & -> & Hp2 & Hsnap' & Hkeep & Hcover & Hdom).
      { simpl. intros name st. destruct (decide (name = k)) as [->|Hne].
        - rewrite !lookup_insert_eq. intros [= <-]. by exists sm'.
        - rewrite !lookup_insert_ne by done. apply Hsnap. }
      exists status', m', (t1 ++ t2). split; [done|].
      split; [by apply Forall_app|]. split; [done|].
      split; [|split].
      * intros name Hname. apply Hkeep.
        destruct (decide (name = k)) as [->|Hne];
          [by rewrite lookup_insert_eq|by rewrite lookup_insert_ne].
      * intros name Hin Hname. apply elem_of_cons in Hin as [->|Hin].
        -- apply Hkeep. by rewrite lookup_insert_eq.
        -- apply Hcover; [done|]. simpl.
           destruct (decide (name = k)) as [->|Hne];
             [by rewrite lookup_insert_eq|by rewrite lookup_insert_ne].
      * intros name Hname. apply Hdom. simpl.
        destruct (decide (name = k)) as [->|Hne];
          [by rewrite lookup_insert_eq|by rewrite lookup_insert_ne].
    + destruct (IH status m Hsnap)
        as (status' & m' & t2 & -> & Hp2 & Hsnap' & Hkeep & Hcover & Hdom).
      exists status', m', t2. split; [done|]. split; [done|]. split; [done|].
      split; [done|]. split; [|done].
      intros name Hin Hname. apply elem_of_cons in Hin as [->|Hin].
      * rewrite Hk in Hname. by destruct Hname.
      * by apply Hcover.
Qed.

(** X22. [GetCurrentStatus] only looks. It always returns a status map;
    everything it does to the host is a liveness probe (a null signal or
    a tasklist query): it terminates nothing, starts nothing, logs
    nothing and, unlike the monitoring pass, dispatches no restart. The
    map has an entry for every visited service, and each entry is the
    status that the manager holds for that service when the call
    returns. *)
Theorem GetCurrentStatus_only_probes (env : Env) (order : list string)
    (m : Manager.t H) :
  let r := Manager.GetCurrentStatus env order m in
  exists status,
    outcome r = Returned status /\
    Spec.only_probes (trace r) /\
    Spec.snapshot_of status (Manager.services (state r)) /\
    (forall name, name ∈ order -> is_Some (Manager.services m !! name) ->
       is_Some (status !! name)).
Proof.
  cbv zeta. unfold Manager.GetCurrentStatus.
  destruct (current_status_spec env order ∅ m)
    as (status & m' & tr & -> & Hp & Hsnap & _ & Hcover & _).
  { intros name st. by rewrite lookup_empty. }
  exists status. by repeat split.
Qed.

(** *** Manager: the monitoring pass and the status channel *)

Lemma collect_status_returns (env : Env) (order : list string) :
  forall (statusMap : gmap string ServiceStatus.t) (m : Manager.t H),
    exists statusMap' m' tr,
      Manager.collect_status env order statusMap m = (Returned statusMap', m', tr) /\
      Manager.statusChan m' = Manager.statusChan m.
Proof.
  induction order as [|k order IH]; intros statusMap m; simpl.
  - by exists statusMap, m, [].
  - op_step. destruct (Manager.services m !! k) as [sm|]; last first.
    { destruct (IH statusMap m) as (statusMap' & m' & t2 & -> & Hchan).
      by do 3 eexists. }
    unfold Manager.on_service.
    destruct (GetStatus_cases env sm) as (sm' & t1 & -> & _).
    destruct (_ && _); op_step.
    all: match goal with
         | |- context [Manager.collect_status _ _ ?s ?m1] =>
             destruct (IH s m1) as (statusMap' & m' & t2 & -> & Hchan)
         end.
    all: by do 3 eexists.
Qed.

Lemma monitor_handler_returns (get : Manager.t H -> Iface H)
    (set : Iface H -> Manager.t H -> Manager.t H)
    (statusMap : gmap string ServiceStatus.t) (m : Manager.t H) :
  (forall v m, Manager.statusChan (set v m) = Manager.statusChan m) ->
  exists m' tr,
    Manager.monitor_handler get set statusMap m = (Returned tt, m', tr) /\
    Manager.statusChan m' = Manager.statusChan m.
Proof.
  intros Hset. unfold Manager.monitor_handler. op_step.
  destruct (Manager.usable (get m)) as [h|]; [|by exists m, []].
  destruct (MonitorServices _ _ h) as [h' tr]. do 2 eexists.
  split; [reflexivity|apply Hset].
Qed.

(** A monitoring pass runs up to the send on the status channel; what
    happens there depends on the channel alone. *)
Lemma monitorServices_cases (env : Env) (order : list string) (m : Manager.t H) :
  exists statusMap m' tr,
    Manager.statusChan m' = Manager.statusChan m /\
    Manager.monitorServices env order m =
    match Manager.on_statusChan (Chan.try_send statusMap) m' with
    | (r, m'', _) => (r, m'', tr)
    end.
Proof.
  unfold Manager.monitorServices. op_step.
  destruct (collect_status_returns env order ∅ m)
    as (statusMap & m1 & t1 & -> & F1).
  unfold Manager.monitorUIHandlers. op_step.
  destruct (monitor_handler_returns Manager.grpcUIHandler
              Manager.set_grpcUIHandler statusMap m1) as (m2 & t2 & -> & F2);
    [done|].
  destruct (monitor_handler_returns Manager.swaggerUIHandler
              Manager.set_swaggerUIHandler statusMap m2) as (m3 & t3 & -> & F3);
    [done|].
  exists statusMap, m3, (t1 ++ t2 ++ t3). split; [congruence|].
  unfold Manager.on_statusChan, Chan.try_send.
  destruct (Chan.closed (Manager.statusChan m3)); simpl.
  - by rewrite !app_nil_r.
  - case_bool_decide; simpl; by rewrite ?app_nil_r, <- ?app_assoc.
Qed.

(** X23. The status update of a monitoring pass never blocks. While the
    status channel is open, [monitorServices] returns; the snapshot is
    appended to the channel if there is room in its buffer, and
    otherwise the snapshot is dropped and the channel is left exactly as
    it was, so a reader that is behind sees the older snapshot. *)
Theorem monitorServices_never_blocks (env : Env) (order : list string)
    (m : Manager.t H) :
  Chan.closed (Manager.statusChan m) = false ->
  let ch := Manager.statusChan m in
  let r := Manager.monitorServices env order m in
  outcome r = Returned tt /\
  exists statusMap,
    Manager.statusChan (state r) =
    if bool_decide (length (Chan.buffer ch) < Chan.capacity ch)%nat
    then Chan.mk (Chan.buffer ch ++ [statusMap]) (Chan.capacity ch) false
    else ch.
Proof.
  intros Hopen. cbv zeta.
  destruct (monitorServices_cases env order m) as (statusMap & m' & tr & F & ->).
  unfold Manager.on_statusChan, Chan.try_send. rewrite F, Hopen.
  case_bool_decide; (split; [done|]); exists statusMap; simpl; done.
Qed.

(** X24. A monitoring pass that runs after [Manager.Stop] has returned
    panics: [Stop] closes the status channel, and the pass ends with a
    send on it. Nothing in [monitorServices] tests the channel or the
    cancelled context before the send. *)
Theorem monitorServices_after_Stop_panics (env env' : Env)
    (order order1 order2 order3 : list string) (m : Manager.t H) :
  Chan.closed (Manager.statusChan m) = false ->
  outcome (Manager.monitorServices env' order
             (state (Manager.Stop env order1 order2 order3 m)))
  = Panicked "send on closed channel".
Proof.
  intros Hopen.
  destruct (Manager_Stop_cases env order1 order2 order3 m) as (m1 & t1 & F1 & ->).
  rewrite Hopen. unfold state at 1. cbn [fst snd].
  match goal with
  | |- context [Manager.monitorServices env' order ?m2] =>
      destruct (monitorServices_cases env' order m2)
        as (statusMap & m' & tr & F & ->)
  end.
  unfold Manager.on_statusChan, Chan.try_send. rewrite F. reflexivity.
Qed.

(** *** Manager: start *)



(** X25. Without a Kubernetes context [Manager.Start] does nothing: when
    [kubectl config current-context] fails, it returns the error
    "failed to get Kubernetes context: <err>", creates no service
    manager, launches no kubectl, starts no monitoring and logs
    nothing; the manager is exactly as it was. *)
Theorem Manager_Start_without_context (env : Env) (order1 order2 : list string)
    (clock : string -> Time * Time) (m : Manager.t H) (err : error) :
  kubectlCurrentContext env = inr err ->
  Manager.Start env order1 order2 clock m =
  (Returned (Some ("failed to get Kubernetes context: " +:+ err)), m, []).
Proof.
  intros Hfail. unfold Manager.Start, Manager.updateKubernetesContext,
    Manager.getCurrentKubernetesContext. by rewrite Hfail.
Qed.


End ManagerFurther.

Lemma context_change_dispatched_once_witness :
  Manager.getCurrentKubernetesContext (Fixtures.host_printing "staging")
  = inl "staging" /\
  trace (Manager.checkKubernetesContext (Fixtures.host_printing "staging")
           Fixtures.started)
  = [EvLog LevelInfo
       "Kubernetes context changed from %s to %s, restarting all services";
     EvGo TaskRestartAllServices].
Proof.
  split; [reflexivity|].
  destruct (context_change_dispatched_once (Fixtures.host_printing "staging")
              Fixtures.started "staging" eq_refl) as (_ & _ & _ & Htrace & _).
  rewrite Htrace. reflexivity.
Defined.

Lemma restartAllServices_restarts_each_once_witness :
  NoDup ["api"] /\
  Spec.ladders (Manager.services Fixtures.started) /\
  outcome (Manager.restartAllServices (Fixtures.host [] 4243) ["api"]
             (fun _ => (200, 201)) Fixtures.started)
  = Returned tt.
Proof.
  assert (Hnd : NoDup ["api"]) by apply NoDup_singleton.
  assert (Hl : Spec.ladders (Manager.services Fixtures.started)).
  { assert (Hs : Manager.services Fixtures.started
                 = <["api" := Fixtures.running]> ∅) by (vm_compute; reflexivity).
    rewrite Hs. intros name sm. rewrite lookup_insert.
    case_decide; [by intros [= <-]|by rewrite lookup_empty]. }
  split; [exact Hnd|]. split; [exact Hl|].
  destruct (restartAllServices_restarts_each_once (Fixtures.host [] 4243) ["api"]
              (fun _ => (200, 201)) Fixtures.started Hnd Hl) as (Hret & _).
  exact Hret.
Defined.

Lemma Manager_Stop_stops_every_service_witness :
  NoDup ["api"] /\
  Manager.services
    (state (Manager.Stop (Fixtures.host [] 4242) ["api"] ["api"] ["api"]
              Fixtures.started)) !! "api"
  = Some (Spec.stopped Fixtures.running).
Proof.
  assert (Hnd : NoDup ["api"]) by apply NoDup_singleton.
  split; [exact Hnd|].
  destruct (Manager_Stop_stops_every_service (Fixtures.host [] 4242)
              ["api"] ["api"] ["api"] Fixtures.started Hnd) as (Hstop & _).
  apply Hstop; [apply elem_of_cons; by left|vm_compute; reflexivity].
Defined.

Lemma RestartService_only_named_witness :
  Manager.services Fixtures.started !! "web" = None /\
  Manager.RestartService (Fixtures.host [] 4243) 200 201 "web" Fixtures.started
  = (Returned (Some "service web not found"), Fixtures.started, []).
Proof.
  split; [vm_compute; reflexivity|].
  destruct (RestartService_only_named (Fixtures.host [] 4243) 200 201 "web"
              Fixtures.started) as (Hunknown & _).
  apply Hunknown. vm_compute. reflexivity.
Defined.

Lemma GetCurrentStatus_only_probes_witness :
  exists status,
    outcome (Manager.GetCurrentStatus (Fixtures.host [] 4242) ["api"]
               Fixtures.started) = Returned status /\
    is_Some (status !! "api").
Proof.
  destruct (GetCurrentStatus_only_probes (Fixtures.host [] 4242) ["api"]
              Fixtures.started) as (status & Hret & _ & _ & Hcover).
  exists status. split; [exact Hret|].
  apply Hcover; [apply elem_of_cons; by left|]. vm_compute. eauto.
Defined.

Lemma monitorServices_never_blocks_witness :
  Chan.closed (Manager.statusChan Fixtures.started) = false /\
  outcome (Manager.monitorServices (Fixtures.host [9000] 4242) ["api"]
             Fixtures.started)
  = Returned tt.
Proof.
  split; [reflexivity|].
  destruct (monitorServices_never_blocks (Fixtures.host [9000] 4242) ["api"]
              Fixtures.started eq_refl) as (Hret & _).
  exact Hret.
Defined.

Lemma monitorServices_after_Stop_panics_witness :
  Chan.closed (Manager.statusChan Fixtures.started) = false /\
  outcome (Manager.monitorServices (Fixtures.host [9000] 4242) ["api"]
             (state (Manager.Stop (Fixtures.host [9000] 4242) ["api"] ["api"]
                       ["api"] Fixtures.started)))
  = Panicked "send on closed channel".
Proof.
  split; [reflexivity|].
  exact (monitorServices_after_Stop_panics (Fixtures.host [9000] 4242)
           (Fixtures.host [9000] 4242) ["api"] ["api"] ["api"] ["api"]
           Fixtures.started eq_refl).
Defined.

Lemma Manager_Start_without_context_witness :
  kubectlCurrentContext (Fixtures.host_without_kubectl [])
  = inr "exec: kubectl: executable file not found" /\
  Manager.Start (Fixtures.host_without_kubectl []) ["api"] ["api"]
    (fun _ => (100, 101))
    (Manager.NewManager Fixtures.cfg : Manager.t MockUIHandler.t)
  = (Returned (Some
       "failed to get Kubernetes context: exec: kubectl: executable file not found"),
     Manager.NewManager Fixtures.cfg, []).
Proof.
  split; [reflexivity|].
  exact (Manager_Start_without_context (Fixtures.host_without_kubectl [])
           ["api"] ["api"] (fun _ => (100, 101))
           (Manager.NewManager Fixtures.cfg)
           "exec: kubectl: executable file not found" eq_refl).
Defined.

